(** * modifiedLSTM: the Basic and Advanced Neat recurrent cells

    A shallow embedding of [src/modifiedLSTM.py].  The file defines two
    recurrent cells, [BasicNeatCell] and [AdvancedNeatCell]; each has a
    constructor, the [state_size] and [output_size] properties, [build]
    (which allocates one kernel and one bias variable) and [call] (one
    time step).

    Modelling choices.
    - Scalars are real numbers ([R]); the floating-point rounding of the
      framework is not modelled.
    - A rank-2 tensor is a record of its static shape and its rows.  The
      rank-1 bias is a list.
    - [call] runs in a small monad that threads two effects of the source:
      an exception may be raised, and every framework function that is
      called is appended to a log (the framework records every such call
      as a node of its graph), in Python's evaluation order.
    - The framework functions ([math_ops.matmul], [array_ops.split], ...)
      are not part of the repository.  They are modelled on rank-2 tensors
      of matching shapes; where the shapes do not fit they raise
      [FrameworkError].  Broadcasting between tensors of different shapes
      is outside the model (also reported as [FrameworkError]), except for
      [nn_ops.bias_add], whose bias is added to every row.
    - The values of the two variables are held by the framework's variable
      store; [call] receives the current values of [self._kernel] and
      [self._bias] as the arguments [kernel] and [bias]. *)

From Stdlib Require Import String.
From Stdlib Require Import Reals Lra Lia Arith Bool List.
Import ListNotations.

Set Implicit Arguments.

(* ================================================================= *)
(** * Scalar nonlinearities *)

Definition sigmoid_R (x : R) : R := (1 / (1 + exp (- x)))%R.
Definition relu_R (x : R) : R := Rmax x 0.
Definition identity_R (x : R) : R := x.

(* ================================================================= *)
(** * Tensors *)

Record Tensor := mkTensor {
  t_rows : nat;
  t_cols : nat;
  t_data : list (list R)
}.

Definition Vec := list R.

(** [get_shape] as the framework reports it for a rank-2 tensor. *)
Definition get_shape (t : Tensor) : list nat := [t_rows t; t_cols t].

(** The data of a tensor agrees with its static shape. *)
Definition wf (t : Tensor) : Prop :=
  length (t_data t) = t_rows t /\
  Forall (fun row => length row = t_cols t) (t_data t).

Definition has_shape (r k : nat) (t : Tensor) : Prop :=
  t_rows t = r /\ t_cols t = k.

Definition same_shape (x y : Tensor) : bool :=
  (t_rows x =? t_rows y) && (t_cols x =? t_cols y).

(** Every entry of the tensor satisfies [P]. *)
Definition all_entries (P : R -> Prop) (t : Tensor) : Prop :=
  Forall (Forall P) (t_data t).

(** Pure operations on the data; no shape is checked here. *)
Module Dense.

Fixpoint zipWith {A B C} (f : A -> B -> C) (u : list A) (v : list B)
  : list C :=
  match u, v with
  | x :: u', y :: v' => f x y :: zipWith f u' v'
  | _, _ => []
  end.

Definition map (f : R -> R) (t : Tensor) : Tensor :=
  mkTensor (t_rows t) (t_cols t) (List.map (List.map f) (t_data t)).

Definition map2 (f : R -> R -> R) (x y : Tensor) : Tensor :=
  mkTensor (t_rows x) (t_cols x)
           (zipWith (zipWith f) (t_data x) (t_data y)).

Definition dot (u v : list R) : R :=
  fold_right Rplus 0%R (zipWith Rmult u v).

Definition column (j : nat) (t : Tensor) : list R :=
  List.map (fun row => nth j row 0%R) (t_data t).

Definition matmul (a b : Tensor) : Tensor :=
  mkTensor (t_rows a) (t_cols b)
    (List.map
       (fun row => List.map (fun j => dot row (column j b))
                            (seq 0 (t_cols b)))
       (t_data a)).

Definition bias_add (t : Tensor) (b : Vec) : Tensor :=
  mkTensor (t_rows t) (t_cols t)
           (List.map (fun row => zipWith Rplus row b) (t_data t)).

Definition slice {A} (off len : nat) (l : list A) : list A :=
  firstn len (skipn off l).

Definition slice_rows (off len : nat) (t : Tensor) : Tensor :=
  mkTensor len (t_cols t) (slice off len (t_data t)).

Definition slice_cols (off len : nat) (t : Tensor) : Tensor :=
  mkTensor (t_rows t) len (List.map (slice off len) (t_data t)).

(** Consecutive pieces of the given sizes, starting at [off]. *)
Fixpoint pieces {A} (piece : nat -> nat -> A) (off : nat)
         (sizes : list nat) : list A :=
  match sizes with
  | [] => []
  | s :: rest => piece off s :: pieces piece (off + s) rest
  end.

Definition split_rows (sizes : list nat) (t : Tensor) : list Tensor :=
  pieces (fun off len => slice_rows off len t) 0 sizes.

Definition split_cols (sizes : list nat) (t : Tensor) : list Tensor :=
  pieces (fun off len => slice_cols off len t) 0 sizes.

Definition split_vec (sizes : list nat) (v : Vec) : list Vec :=
  pieces (fun off len => slice off len v) 0 sizes.

Definition concat_cols (x y : Tensor) : Tensor :=
  mkTensor (t_rows x) (t_cols x + t_cols y)
           (zipWith (@app R) (t_data x) (t_data y)).

Definition concat_rows (x y : Tensor) : Tensor :=
  mkTensor (t_rows x + t_rows y) (t_cols x) (t_data x ++ t_data y).

End Dense.

(* ================================================================= *)
(** * Exceptions and the log of framework calls *)

(** A static shape: each dimension is known or [None]. *)
Definition TensorShape := list (option nat).

Inductive Error :=
| ValueError (msg : string) (saw : TensorShape)
    (* the one [raise] statement of the file *)
| FrameworkError.
    (* anything raised by the framework or the interpreter *)

Inductive Result (A : Type) :=
| Ok (a : A)
| Raise (e : Error).
Arguments Ok {A} a.
Arguments Raise {A} e.

(** The framework functions the two [call] methods use. *)
Inductive Op :=
| Op_constant | Op_split | Op_matmul | Op_multiply | Op_add | Op_maximum
| Op_bias_add | Op_sigmoid | Op_tanh | Op_relu | Op_identity | Op_concat.

Definition Op_eq_dec (x y : Op) : {x = y} + {x <> y}.
Proof. decide equality. Defined.

Definition M (A : Type) : Type := Result (A * list Op).

Definition ret {A} (a : A) : M A := Ok (a, []).

Definition bind {A B} (m : M A) (k : A -> M B) : M B :=
  match m with
  | Raise e => Raise e
  | Ok (a, l1) =>
      match k a with
      | Raise e => Raise e
      | Ok (b, l2) => Ok (b, l1 ++ l2)
      end
  end.

(** A framework call: logged when it succeeds, an exception otherwise. *)
Definition emit {A} (o : Op) (r : option A) : M A :=
  match r with
  | Some a => Ok (a, [o])
  | None => Raise FrameworkError
  end.

Declare Scope cell_scope.
Delimit Scope cell_scope with cell.
Notation "x <- m ;; k" := (bind m (fun x => k))
  (at level 61, m at next level, right associativity) : cell_scope.
Notation "' pat <- m ;; k" :=
  (bind m (fun x => match x with pat => k end))
  (at level 61, pat pattern, m at next level, right associativity)
  : cell_scope.
(** Python's tuple unpacking of a list: an exception when the number of
    elements differs. *)
Notation "'unpack' pat <- m ;; k" :=
  (bind m (fun x => match x with pat => k | _ => Raise FrameworkError end))
  (at level 61, pat pattern, m at next level, right associativity)
  : cell_scope.
Open Scope cell_scope.

(** A Python variable used as an argument is a computation that returns
    its value and logs nothing. *)
Definition ret_tensor (t : Tensor) : M Tensor := ret t.
Coercion ret_tensor : Tensor >-> M.

(* ================================================================= *)
(** * The framework functions *)

Inductive NumOrSizeSplits :=
| Num (k : nat)
| Sizes (sizes : list nat).

(** The sizes of the pieces of a dimension [dim], or [None] when the
    split is refused. *)
Definition split_sizes (nos : NumOrSizeSplits) (dim : nat)
  : option (list nat) :=
  match nos with
  | Sizes sizes => if list_sum sizes =? dim then Some sizes else None
  | Num k =>
      if (0 <? k) && (dim mod k =? 0) then Some (repeat (dim / k) k)
      else None
  end.

Definition unary (o : Op) (f : R -> R) (mx : M Tensor) : M Tensor :=
  x <- mx ;; emit o (Some (Dense.map f x)).

Definition binary (o : Op) (f : R -> R -> R) (mx my : M Tensor)
  : M Tensor :=
  x <- mx ;; y <- my ;;
  emit o (if same_shape x y then Some (Dense.map2 f x y) else None).

(** The arithmetic of the operations below is that of the real numbers.
    The framework computes in floating point, where [tanh] and [sigmoid]
    of a large argument round to exactly 1, -1 or 0 and a product of
    small numbers can round to 0.  Of a bound or a sign proved from these
    definitions, only the non-strict form, or a strict form that holds
    with a margin, is also a fact of the framework's numbers. *)
Module constant_op.
Definition constant (v : nat) : M nat := emit Op_constant (Some v).
End constant_op.

Module math_ops.
Definition sigmoid := unary Op_sigmoid sigmoid_R.
Definition tanh := unary Op_tanh Rtrigo_def.tanh.
Definition add := binary Op_add Rplus.
Definition multiply := binary Op_multiply Rmult.
Definition matmul (ma mb : M Tensor) : M Tensor :=
  a <- ma ;; b <- mb ;;
  emit Op_matmul (if t_cols a =? t_rows b then Some (Dense.matmul a b)
               else None).
End math_ops.

Module gen_math_ops.
Definition maximum := binary Op_maximum Rmax.
End gen_math_ops.

Module nn_ops.
Definition relu := unary Op_relu relu_R.
Definition bias_add (mv : M Tensor) (b : Vec) : M Tensor :=
  v <- mv ;;
  emit Op_bias_add (if length b =? t_cols v then Some (Dense.bias_add v b)
                else None).
End nn_ops.

Module array_ops.
Definition identity := unary Op_identity identity_R.

Definition split (value : Tensor) (num_or_size_splits : NumOrSizeSplits)
           (axis : nat) : M (list Tensor) :=
  emit Op_split
    match axis with
    | 0 => option_map (fun sizes => Dense.split_rows sizes value)
                      (split_sizes num_or_size_splits (t_rows value))
    | 1 => option_map (fun sizes => Dense.split_cols sizes value)
                      (split_sizes num_or_size_splits (t_cols value))
    | _ => None
    end.

(** The same function on the rank-1 bias. *)
Definition split_vec (value : Vec) (num_or_size_splits : NumOrSizeSplits)
           (axis : nat) : M (list Vec) :=
  emit Op_split
    match axis with
    | 0 => option_map (fun sizes => Dense.split_vec sizes value)
                      (split_sizes num_or_size_splits (length value))
    | _ => None
    end.

Definition concat2 (axis : nat) (x y : Tensor) : option Tensor :=
  match axis with
  | 0 => if t_cols x =? t_cols y then Some (Dense.concat_rows x y)
         else None
  | 1 => if t_rows x =? t_rows y then Some (Dense.concat_cols x y)
         else None
  | _ => None
  end.

Definition concat (values : list Tensor) (axis : nat) : M Tensor :=
  emit Op_concat
    match values with
    | [] => None
    | x :: rest =>
        fold_left
          (fun acc y =>
             match acc with
             | Some a => concat2 axis a y
             | None => None
             end)
          rest (Some x)
    end.
End array_ops.

(* ================================================================= *)
(** * The cell object *)

Inductive DType := float16 | float32 | float64.

Inductive Initializer :=
| zeros_initializer (dtype : option DType).

Record InputSpec := { ndim : nat }.

(** A variable as [add_variable] registers it; [None] as initializer is
    the framework's default. *)
Record LayerVariable := {
  var_name : string;
  var_shape : list nat;
  var_initializer : option Initializer
}.

(** [LSTMStateTuple(c, h)], or a single value: a state size is a
    [Nested nat], a state a [Nested Tensor]. *)
Inductive Nested (A : Type) :=
| LSTMStateTuple (c h : A)
| Single (x : A).
Arguments LSTMStateTuple {A} c h.
Arguments Single {A} x.

Definition Activation := M Tensor -> M Tensor.

(** The attributes of a cell.  Both classes have the same ones. *)
Record Cell := mkCell {
  _reuse : option bool;
  name : option string;
  dtype : option DType;
  input_spec : InputSpec;
  _num_units : nat;
  _forget_bias : R;
  _state_is_tuple : bool;
  _activation : Activation;
  trainable_weights : list LayerVariable;
  _kernel : option LayerVariable;
  _bias : option LayerVariable;
  built : bool
}.

Definition _BIAS_VARIABLE_NAME : string := "bias".
Definition _WEIGHTS_VARIABLE_NAME : string := "kernel".

(** [self.add_variable]: the new variable is registered with the layer. *)
Definition add_variable (self : Cell) (nm : string) (shape : list nat)
           (initializer : option Initializer) : Cell * LayerVariable :=
  let v := {| var_name := nm; var_shape := shape;
              var_initializer := initializer |} in
  (mkCell (_reuse self) (name self) (dtype self) (input_spec self)
          (_num_units self) (_forget_bias self) (_state_is_tuple self)
          (_activation self) (trainable_weights self ++ [v])
          (_kernel self) (_bias self) (built self),
   v).

Definition set_kernel (self : Cell) (v : LayerVariable) : Cell :=
  mkCell (_reuse self) (name self) (dtype self) (input_spec self)
         (_num_units self) (_forget_bias self) (_state_is_tuple self)
         (_activation self) (trainable_weights self)
         (Some v) (_bias self) (built self).

Definition set_bias (self : Cell) (v : LayerVariable) : Cell :=
  mkCell (_reuse self) (name self) (dtype self) (input_spec self)
         (_num_units self) (_forget_bias self) (_state_is_tuple self)
         (_activation self) (trainable_weights self)
         (_kernel self) (Some v) (built self).

Definition set_built (self : Cell) (b : bool) : Cell :=
  mkCell (_reuse self) (name self) (dtype self) (input_spec self)
         (_num_units self) (_forget_bias self) (_state_is_tuple self)
         (_activation self) (trainable_weights self)
         (_kernel self) (_bias self) b.

(** What the framework does to a layer on its first call, before it calls
    [build]: a layer constructed with [dtype=None] takes the dtype of its
    first input (the constructor's docstring: "default of [None] means use
    the type of the first input"). *)
Definition infer_dtype (input_dtype : DType) (self : Cell) : Cell :=
  match dtype self with
  | Some _ => self
  | None =>
      mkCell (_reuse self) (name self) (Some input_dtype) (input_spec self)
             (_num_units self) (_forget_bias self) (_state_is_tuple self)
             (_activation self) (trainable_weights self)
             (_kernel self) (_bias self) (built self)
  end.

(** [c, h = state] on a state that is a pair. *)
Definition iter2 (state : Nested Tensor) : M (Tensor * Tensor) :=
  match state with
  | LSTMStateTuple c h => ret (c, h)
  | Single _ => Raise FrameworkError
  end.

(** A state handed to a framework function as one tensor. *)
Definition as_tensor (state : Nested Tensor) : M Tensor :=
  match state with
  | Single t => ret t
  | LSTMStateTuple _ _ => Raise FrameworkError
  end.

Definition concat_state_warning : string :=
  "%s: Using a concatenated state is slower and will soon be deprecated.  Use state_is_tuple=True.".

Definition unknown_depth_message : string :=
  "Expected inputs.shape[-1] to be known, saw shape: %s".

(* ================================================================= *)
(** * class BasicNeatCell *)

Module BasicNeatCell.

(** Returns the new object and the warnings it logged. *)
Definition __init__ (num_units : nat) (forget_bias : R)
           (state_is_tuple : bool) (activation : option Activation)
           (reuse : option bool) (name : option string)
           (dtype : option DType) : Cell * list string :=
  ({| _reuse := reuse; name := name; dtype := dtype;
      input_spec := {| ndim := 2 |};
      _num_units := num_units;
      _forget_bias := forget_bias;
      _state_is_tuple := state_is_tuple;
      _activation := match activation with
                     | Some f => f
                     | None => math_ops.tanh
                     end;
      trainable_weights := [];
      _kernel := None; _bias := None; built := false |},
   if negb state_is_tuple then [concat_state_warning] else []).

Definition state_size (self : Cell) : Nested nat :=
  if _state_is_tuple self
  then LSTMStateTuple (_num_units self) (_num_units self)
  else Single (2 * _num_units self).

Definition output_size (self : Cell) : nat := _num_units self.

(** [dtype self] is the dtype the layer has when [build] runs: the
    constructor's argument or, when that is [None] and the layer is built
    by its first call, the dtype of the first input ([infer_dtype]). *)
Definition build (self : Cell) (inputs_shape : TensorShape)
  : Result Cell :=
  match nth_error inputs_shape 1 with
  | None => Raise FrameworkError
  | Some None => Raise (ValueError unknown_depth_message inputs_shape)
  | Some (Some input_depth) =>
      let h_depth := _num_units self in
      let '(self, kernel) :=
        add_variable self _WEIGHTS_VARIABLE_NAME
                     [input_depth + h_depth; 8 * _num_units self] None in
      let self := set_kernel self kernel in
      let '(self, bias) :=
        add_variable self _BIAS_VARIABLE_NAME
                     [8 * _num_units self]
                     (Some (zeros_initializer (dtype self))) in
      let self := set_bias self bias in
      Ok (set_built self true)
  end.

Definition call (self : Cell) (kernel : Tensor) (bias : Vec)
           (inputs : Tensor) (state : Nested Tensor)
  : M (Tensor * Nested Tensor) :=
  let sigmoid := math_ops.sigmoid in
  zero <- constant_op.constant 0 ;;
  one <- constant_op.constant 1 ;;
  '(c, h) <-
    (if _state_is_tuple self then iter2 state
     else value <- as_tensor state ;;
          unpack [c; h] <- array_ops.split value (Num 2) one ;;
          ret (c, h)) ;;
  let input_depth := t_cols inputs in
  let shape := t_cols kernel in
  let ratio := [_num_units self * 1; _num_units self * 7] in
  unpack [W_f; W_r] <- array_ops.split kernel (Sizes ratio) one ;;
  unpack [W_fi; W_fh] <-
    array_ops.split W_f (Sizes [input_depth; _num_units self]) zero ;;
  unpack [b_f; b_r] <- array_ops.split_vec bias (Sizes ratio) zero ;;
  a <- math_ops.multiply (math_ops.matmul h W_fh)
                         (math_ops.matmul inputs W_fi) ;;
  a <- nn_ops.bias_add a b_f ;;
  unpack [W_ri; W_rh] <-
    array_ops.split W_r (Sizes [input_depth; _num_units self]) zero ;;
  bh <- math_ops.add (math_ops.matmul h W_rh)
                     (math_ops.matmul inputs W_ri) ;;
  bh <- nn_ops.bias_add bh b_r ;;
  unpack [b; c2; d; e; f; g; h] <- array_ops.split bh (Num 7) one ;;
  let add := math_ops.add in
  let multiply := math_ops.multiply in
  let tanh := math_ops.tanh in
  let relu := nn_ops.relu in
  let identity := array_ops.identity in
  new_c <-
    multiply (tanh (add c (tanh (multiply (relu h) (sigmoid g)))))
             (tanh (add (sigmoid d) (relu a))) ;;
  new_h <-
    tanh (multiply (identity new_c)
            (tanh (add (tanh (multiply (sigmoid e) (tanh f)))
                       (sigmoid (add (sigmoid b) (tanh c2)))))) ;;
  new_state <-
    (if _state_is_tuple self then ret (LSTMStateTuple new_c new_h)
     else packed <- array_ops.concat [new_c; new_h] 1 ;;
          ret (Single packed)) ;;
  ret (new_h, new_state).

End BasicNeatCell.

(* ================================================================= *)
(** * class AdvancedNeatCell *)

Module AdvancedNeatCell.

(** Returns the new object and the warnings it logged. *)
Definition __init__ (num_units : nat) (forget_bias : R)
           (state_is_tuple : bool) (activation : option Activation)
           (reuse : option bool) (name : option string)
           (dtype : option DType) : Cell * list string :=
  ({| _reuse := reuse; name := name; dtype := dtype;
      input_spec := {| ndim := 2 |};
      _num_units := num_units;
      _forget_bias := forget_bias;
      _state_is_tuple := state_is_tuple;
      _activation := match activation with
                     | Some f => f
                     | None => math_ops.tanh
                     end;
      trainable_weights := [];
      _kernel := None; _bias := None; built := false |},
   if negb state_is_tuple then [concat_state_warning] else []).

Definition state_size (self : Cell) : Nested nat :=
  if _state_is_tuple self
  then LSTMStateTuple (_num_units self) (_num_units self)
  else Single (2 * _num_units self).

Definition output_size (self : Cell) : nat := _num_units self.

(** [dtype self] is the dtype the layer has when [build] runs: the
    constructor's argument or, when that is [None] and the layer is built
    by its first call, the dtype of the first input ([infer_dtype]). *)
Definition build (self : Cell) (inputs_shape : TensorShape)
  : Result Cell :=
  match nth_error inputs_shape 1 with
  | None => Raise FrameworkError
  | Some None => Raise (ValueError unknown_depth_message inputs_shape)
  | Some (Some input_depth) =>
      let h_depth := _num_units self in
      let '(self, kernel) :=
        add_variable self _WEIGHTS_VARIABLE_NAME
                     [input_depth + h_depth; 8 * _num_units self] None in
      let self := set_kernel self kernel in
      let '(self, bias) :=
        add_variable self _BIAS_VARIABLE_NAME
                     [8 * _num_units self]
                     (Some (zeros_initializer (dtype self))) in
      let self := set_bias self bias in
      Ok (set_built self true)
  end.

Definition call (self : Cell) (kernel : Tensor) (bias : Vec)
           (inputs : Tensor) (state : Nested Tensor)
  : M (Tensor * Nested Tensor) :=
  let sigmoid := math_ops.sigmoid in
  zero <- constant_op.constant 0 ;;
  one <- constant_op.constant 1 ;;
  '(c, h) <-
    (if _state_is_tuple self then iter2 state
     else value <- as_tensor state ;;
          unpack [c; h] <- array_ops.split value (Num 2) one ;;
          ret (c, h)) ;;
  let input_depth := t_cols inputs in
  let shape := t_cols kernel in
  let ratio := [_num_units self * 5; _num_units self * 3] in
  unpack [W_f; W_r] <- array_ops.split kernel (Sizes ratio) one ;;
  unpack [W_fi; W_fh] <-
    array_ops.split W_f (Sizes [input_depth; _num_units self]) zero ;;
  unpack [b_f; b_r] <- array_ops.split_vec bias (Sizes ratio) zero ;;
  sw <- math_ops.add (math_ops.matmul h W_fh)
                     (math_ops.matmul inputs W_fi) ;;
  sw <- nn_ops.bias_add sw b_f ;;
  unpack [s; t; u; v; w] <- array_ops.split sw (Num 5) one ;;
  unpack [W_ri; W_rh] <-
    array_ops.split W_r (Sizes [input_depth; _num_units self]) zero ;;
  xz <- gen_math_ops.maximum (math_ops.matmul h W_rh)
                             (math_ops.matmul inputs W_ri) ;;
  xz <- nn_ops.bias_add xz b_r ;;
  unpack [x; y; z] <- array_ops.split xz (Num 3) one ;;
  let add := math_ops.add in
  let multiply := math_ops.multiply in
  let tanh := math_ops.tanh in
  let relu := nn_ops.relu in
  let identity := array_ops.identity in
  new_c <-
    multiply (identity (add (identity (add c (tanh z))) (identity y)))
             (sigmoid (add (relu v) (tanh s))) ;;
  new_h <-
    tanh (multiply (identity new_c)
            (sigmoid (multiply (sigmoid (add (tanh x) (tanh w)))
                               (sigmoid (add (identity u) (tanh t)))))) ;;
  new_state <-
    (if _state_is_tuple self then ret (LSTMStateTuple new_c new_h)
     else packed <- array_ops.concat [new_c; new_h] 1 ;;
          ret (Single packed)) ;;
  ret (new_h, new_state).

End AdvancedNeatCell.

(* ================================================================= *)
(** * The two classes side by side *)

Inductive NeatCell := BasicNeat | AdvancedNeat.

Definition cell_init (k : NeatCell) :=
  match k with
  | BasicNeat => BasicNeatCell.__init__
  | AdvancedNeat => AdvancedNeatCell.__init__
  end.

Definition cell_state_size (k : NeatCell) :=
  match k with
  | BasicNeat => BasicNeatCell.state_size
  | AdvancedNeat => AdvancedNeatCell.state_size
  end.

Definition cell_output_size (k : NeatCell) :=
  match k with
  | BasicNeat => BasicNeatCell.output_size
  | AdvancedNeat => AdvancedNeatCell.output_size
  end.

Definition cell_build (k : NeatCell) :=
  match k with
  | BasicNeat => BasicNeatCell.build
  | AdvancedNeat => AdvancedNeatCell.build
  end.

Definition cell_call (k : NeatCell) :=
  match k with
  | BasicNeat => BasicNeatCell.call
  | AdvancedNeat => AdvancedNeatCell.call
  end.

(** [ratio] of [call]: how many of the [8 * num_units] columns of the
    kernel go to the first block and how many to the second. *)
Definition ratio (k : NeatCell) (n : nat) : nat * nat :=
  match k with
  | BasicNeat => (n * 1, n * 7)
  | AdvancedNeat => (n * 5, n * 3)
  end.

(** One run of a cell from its construction: [__init__], then [build] on
    the static shape of the inputs, then [call]. *)
Definition run (k : NeatCell) (num_units : nat) (forget_bias : R)
           (state_is_tuple : bool) (activation : option Activation)
           (reuse : option bool) (name : option string)
           (dtype : option DType) (inputs_shape : TensorShape)
           (kernel : Tensor) (bias : Vec) (inputs : Tensor)
           (state : Nested Tensor) : M (Tensor * Nested Tensor) :=
  match cell_build k
          (fst (cell_init k num_units forget_bias state_is_tuple
                          activation reuse name dtype))
          inputs_shape with
  | Ok self => cell_call k self kernel bias inputs state
  | Raise e => Raise e
  end.

(* ================================================================= *)
(** * Shapes of a built cell and of its arguments *)

(** [kernel] and [bias] are values of the two variables of [self]. *)
Definition variables_hold (self : Cell) (kernel : Tensor) (bias : Vec)
  : Prop :=
  option_map var_shape (_kernel self) = Some (get_shape kernel) /\
  option_map var_shape (_bias self) = Some [length bias].

(** A state of batch size [B] has the structure and the shapes that
    [state_size] announces. *)
Definition state_matches (B : nat) (size : Nested nat)
           (state : Nested Tensor) : Prop :=
  match size, state with
  | LSTMStateTuple nc nh, LSTMStateTuple c h =>
      has_shape B nc c /\ has_shape B nh h
  | Single k, Single t => has_shape B k t
  | _, _ => False
  end.

Definition state_wf (state : Nested Tensor) : Prop :=
  match state with
  | LSTMStateTuple c h => wf c /\ wf h
  | Single t => wf t
  end.


Definition in_unit (x : R) : Prop := (-1 < x < 1)%R.

(* ================================================================= *)
(** * Closed forms

    What [call] computes on arguments of the right shapes, written with
    the pure operations.  The lemmas [BasicNeatCell_call_closed] and
    [AdvancedNeatCell_call_closed] prove that the two [call] methods
    return these values. *)

Definition empty_tensor : Tensor := mkTensor 0 0 [].

(** The cell state and the hidden state held by a state. *)
Definition state_c (n : nat) (state : Nested Tensor) : Tensor :=
  match state with
  | LSTMStateTuple c _ => c
  | Single t => Dense.slice_cols 0 n t
  end.

Definition state_h (n : nat) (state : Nested Tensor) : Tensor :=
  match state with
  | LSTMStateTuple _ h => h
  | Single t => Dense.slice_cols n n t
  end.

Definition pack_state (state_is_tuple : bool) (new_c new_h : Tensor)
  : Nested Tensor :=
  if state_is_tuple then LSTMStateTuple new_c new_h
  else Single (Dense.concat_cols new_c new_h).

(** The pieces of the kernel and of the bias. *)
Record Blocks := mkBlocks {
  W_fi : Tensor; W_fh : Tensor;
  W_ri : Tensor; W_rh : Tensor;
  b_f : Vec; b_r : Vec
}.

(** The columns are split into the first [p] and the next [q], then the
    rows of each part into the [d] input rows and the [n] hidden rows. *)
Definition blocks (d n : nat) (pq : nat * nat) (kernel : Tensor)
           (bias : Vec) : Blocks :=
  let W_f := Dense.slice_cols 0 (fst pq) kernel in
  let W_r := Dense.slice_cols (fst pq) (snd pq) kernel in
  {| W_fi := Dense.slice_rows 0 d W_f;
     W_fh := Dense.slice_rows d n W_f;
     W_ri := Dense.slice_rows 0 d W_r;
     W_rh := Dense.slice_rows d n W_r;
     b_f := Dense.slice 0 (fst pq) bias;
     b_r := Dense.slice (fst pq) (snd pq) bias |}.

(** The blocks put back together. *)
Definition assemble (w : Blocks) : Tensor * Vec :=
  (Dense.concat_cols (Dense.concat_rows (W_fi w) (W_fh w))
                     (Dense.concat_rows (W_ri w) (W_rh w)),
   b_f w ++ b_r w).

Module BasicForm.
Section BasicForm.
Variables (n : nat) (w : Blocks) (inputs : Tensor).

(** [hf] and [hr] stand for the two products of the hidden state,
    [matmul(h, W_fh)] and [matmul(h, W_rh)]. *)
Definition a (hf : Tensor) : Tensor :=
  Dense.bias_add
    (Dense.map2 Rmult hf (Dense.matmul inputs (W_fi w))) (b_f w).

Definition bh (hr : Tensor) : Tensor :=
  Dense.bias_add
    (Dense.map2 Rplus hr (Dense.matmul inputs (W_ri w))) (b_r w).

(** The seven gates, in the order [b, c2, d, e, f, g, h]. *)
Definition gate (i : nat) (hr : Tensor) : Tensor :=
  nth i (Dense.split_cols (repeat n 7) (bh hr)) empty_tensor.

Definition new_c_of (c hf hr : Tensor) : Tensor :=
  Dense.map2 Rmult
    (Dense.map tanh
       (Dense.map2 Rplus c
          (Dense.map tanh
             (Dense.map2 Rmult (Dense.map relu_R (gate 6 hr))
                               (Dense.map sigmoid_R (gate 5 hr))))))
    (Dense.map tanh
       (Dense.map2 Rplus (Dense.map sigmoid_R (gate 2 hr))
                         (Dense.map relu_R (a hf)))).

Definition new_h_of (c hf hr : Tensor) : Tensor :=
  Dense.map tanh
    (Dense.map2 Rmult
       (Dense.map identity_R (new_c_of c hf hr))
       (Dense.map tanh
          (Dense.map2 Rplus
             (Dense.map tanh
                (Dense.map2 Rmult (Dense.map sigmoid_R (gate 3 hr))
                                  (Dense.map tanh (gate 4 hr))))
             (Dense.map sigmoid_R
                (Dense.map2 Rplus (Dense.map sigmoid_R (gate 0 hr))
                                  (Dense.map tanh (gate 1 hr))))))).

Definition new_c (c h : Tensor) : Tensor :=
  new_c_of c (Dense.matmul h (W_fh w)) (Dense.matmul h (W_rh w)).

Definition new_h (c h : Tensor) : Tensor :=
  new_h_of c (Dense.matmul h (W_fh w)) (Dense.matmul h (W_rh w)).
End BasicForm.
End BasicForm.

Module AdvancedForm.
Section AdvancedForm.
Variables (n : nat) (w : Blocks) (inputs : Tensor).

Definition sw (h : Tensor) : Tensor :=
  Dense.bias_add
    (Dense.map2 Rplus (Dense.matmul h (W_fh w))
                      (Dense.matmul inputs (W_fi w)))
    (b_f w).

Definition xz (h : Tensor) : Tensor :=
  Dense.bias_add
    (Dense.map2 Rmax (Dense.matmul h (W_rh w))
                     (Dense.matmul inputs (W_ri w)))
    (b_r w).

(** The five gates [s, t, u, v, w] and the three gates [x, y, z]. *)
Definition gate5 (i : nat) (h : Tensor) : Tensor :=
  nth i (Dense.split_cols (repeat n 5) (sw h)) empty_tensor.

Definition gate3 (i : nat) (h : Tensor) : Tensor :=
  nth i (Dense.split_cols (repeat n 3) (xz h)) empty_tensor.

Definition new_c (c h : Tensor) : Tensor :=
  Dense.map2 Rmult
    (Dense.map identity_R
       (Dense.map2 Rplus
          (Dense.map identity_R
             (Dense.map2 Rplus c (Dense.map tanh (gate3 2 h))))
          (Dense.map identity_R (gate3 1 h))))
    (Dense.map sigmoid_R
       (Dense.map2 Rplus (Dense.map relu_R (gate5 3 h))
                         (Dense.map tanh (gate5 0 h)))).

Definition new_h (c h : Tensor) : Tensor :=
  Dense.map tanh
    (Dense.map2 Rmult
       (Dense.map identity_R (new_c c h))
       (Dense.map sigmoid_R
          (Dense.map2 Rmult
             (Dense.map sigmoid_R
                (Dense.map2 Rplus (Dense.map tanh (gate3 0 h))
                                  (Dense.map tanh (gate5 4 h))))
             (Dense.map sigmoid_R
                (Dense.map2 Rplus (Dense.map identity_R (gate5 2 h))
                                  (Dense.map tanh (gate5 1 h))))))).
End AdvancedForm.
End AdvancedForm.

Definition closed_new_c (k : NeatCell) :=
  match k with
  | BasicNeat => BasicForm.new_c
  | AdvancedNeat => AdvancedForm.new_c
  end.

Definition closed_new_h (k : NeatCell) :=
  match k with
  | BasicNeat => BasicForm.new_h
  | AdvancedNeat => AdvancedForm.new_h
  end.

(** The framework calls of one time step, in the order they are made. *)
Definition unpack_log (state_is_tuple : bool) : list Op :=
  if state_is_tuple then [] else [Op_split].

Definition pack_log (state_is_tuple : bool) : list Op :=
  if state_is_tuple then [] else [Op_concat].

(** From the split of the kernel to the last split into gates. *)
Definition projection_log (k : NeatCell) : list Op :=
  match k with
  | BasicNeat =>
      [Op_split; Op_split; Op_split;
       Op_matmul; Op_matmul; Op_multiply; Op_bias_add;
       Op_split;
       Op_matmul; Op_matmul; Op_add; Op_bias_add;
       Op_split]
  | AdvancedNeat =>
      [Op_split; Op_split; Op_split;
       Op_matmul; Op_matmul; Op_add; Op_bias_add;
       Op_split; Op_split;
       Op_matmul; Op_matmul; Op_maximum; Op_bias_add;
       Op_split]
  end.

(** The two formulas for [new_c] and [new_h]. *)
Definition combine_log (k : NeatCell) : list Op :=
  match k with
  | BasicNeat =>
      [Op_relu; Op_sigmoid; Op_multiply; Op_tanh; Op_add; Op_tanh;
       Op_sigmoid; Op_relu; Op_add; Op_tanh; Op_multiply;
       Op_identity; Op_sigmoid; Op_tanh; Op_multiply; Op_tanh;
       Op_sigmoid; Op_tanh; Op_add; Op_sigmoid; Op_add; Op_tanh;
       Op_multiply; Op_tanh]
  | AdvancedNeat =>
      [Op_tanh; Op_add; Op_identity; Op_identity; Op_add; Op_identity;
       Op_relu; Op_tanh; Op_add; Op_sigmoid; Op_multiply;
       Op_identity; Op_tanh; Op_tanh; Op_add; Op_sigmoid;
       Op_identity; Op_tanh; Op_add; Op_sigmoid; Op_multiply;
       Op_sigmoid; Op_multiply; Op_tanh]
  end.

Definition call_log (k : NeatCell) (state_is_tuple : bool) : list Op :=
  [Op_constant; Op_constant] ++ unpack_log state_is_tuple
    ++ projection_log k ++ combine_log k ++ pack_log state_is_tuple.

(** ** Reading a log *)

Definition count (o : Op) (log : list Op) : nat :=
  count_occ Op_eq_dec log o.

Definition is_split (o : Op) : bool :=
  match o with Op_split => true | _ => false end.

(** The part of a log after its last [Op_split] (the whole log when it
    has none). *)
Fixpoint after_last_split (log : list Op) : list Op :=
  match log with
  | [] => []
  | o :: rest =>
      if existsb is_split rest then after_last_split rest
      else if is_split o then rest else o :: rest
  end.

(** The part of a log before its first [Op_matmul]. *)
Fixpoint before_first_matmul (log : list Op) : list Op :=
  match log with
  | [] => []
  | Op_matmul :: _ => []
  | o :: rest => o :: before_first_matmul rest
  end.

(** The operations the specification names for the arithmetic graph:
    the four nonlinearities, matrix multiplication, and elementwise
    addition (with or without broadcasting of a bias) and
    multiplication. *)
Definition named_in_spec (o : Op) : bool :=
  match o with
  | Op_sigmoid | Op_tanh | Op_relu | Op_identity
  | Op_matmul | Op_add | Op_bias_add | Op_multiply => true
  | _ => false
  end.

(** The operations that compute new entries from old ones, entry by
    entry or by a matrix product (the others only build a constant or
    cut and paste tensors). *)
Definition arithmetic (o : Op) : bool :=
  match o with
  | Op_constant | Op_split | Op_concat => false
  | _ => true
  end.

(** The operations of the two gate formulas. *)
Definition combine_op (o : Op) : bool :=
  match o with
  | Op_sigmoid | Op_tanh | Op_relu | Op_identity
  | Op_add | Op_multiply => true
  | _ => false
  end.



(** The computation raises no exception of the cell's own: whatever it
    raises comes from the framework. *)
Definition framework_only {A} (m : M A) : Prop :=
  forall e, m = Raise e -> e = FrameworkError.

(* ================================================================= *)
(** * The transition as the specification words it

    The glossary of the specification describes the fused weight matrix
    as "a single matrix concatenating the weights for all gates, split
    apart after one matrix multiply".  [SpecFused] follows these words:
    the inputs and the hidden state are concatenated, multiplied once
    against the whole kernel, the bias is added, and the result is split
    into the eight gates, which the formulas of the source then combine.
    It is compared with the two [call] methods below. *)

Module SpecFused.

Definition projection (kernel : Tensor) (bias : Vec)
           (inputs h : Tensor) : M Tensor :=
  xh <- array_ops.concat [inputs; h] 1 ;;
  p <- math_ops.matmul xh kernel ;;
  nn_ops.bias_add p bias.

Definition unpack_state (self : Cell) (state : Nested Tensor)
  : M (Tensor * Tensor) :=
  if _state_is_tuple self then iter2 state
  else value <- as_tensor state ;;
       unpack [c; h] <- array_ops.split value (Num 2) 1 ;;
       ret (c, h).

Definition pack (self : Cell) (new_c new_h : Tensor)
  : M (Tensor * Nested Tensor) :=
  new_state <-
    (if _state_is_tuple self then ret (LSTMStateTuple new_c new_h)
     else packed <- array_ops.concat [new_c; new_h] 1 ;;
          ret (Single packed)) ;;
  ret (new_h, new_state).

Definition basic_call (self : Cell) (kernel : Tensor) (bias : Vec)
           (inputs : Tensor) (state : Nested Tensor)
  : M (Tensor * Nested Tensor) :=
  let sigmoid := math_ops.sigmoid in
  let add := math_ops.add in
  let multiply := math_ops.multiply in
  let tanh := math_ops.tanh in
  let relu := nn_ops.relu in
  let identity := array_ops.identity in
  '(c, h) <- unpack_state self state ;;
  gates <- projection kernel bias inputs h ;;
  unpack [a; b; c2; d; e; f; g; h] <-
    array_ops.split gates (Num 8) 1 ;;
  new_c <-
    multiply (tanh (add c (tanh (multiply (relu h) (sigmoid g)))))
             (tanh (add (sigmoid d) (relu a))) ;;
  new_h <-
    tanh (multiply (identity new_c)
            (tanh (add (tanh (multiply (sigmoid e) (tanh f)))
                       (sigmoid (add (sigmoid b) (tanh c2)))))) ;;
  pack self new_c new_h.

Definition advanced_call (self : Cell) (kernel : Tensor) (bias : Vec)
           (inputs : Tensor) (state : Nested Tensor)
  : M (Tensor * Nested Tensor) :=
  let sigmoid := math_ops.sigmoid in
  let add := math_ops.add in
  let multiply := math_ops.multiply in
  let tanh := math_ops.tanh in
  let relu := nn_ops.relu in
  let identity := array_ops.identity in
  '(c, h) <- unpack_state self state ;;
  gates <- projection kernel bias inputs h ;;
  unpack [s; t; u; v; w; x; y; z] <-
    array_ops.split gates (Num 8) 1 ;;
  new_c <-
    multiply (identity (add (identity (add c (tanh z))) (identity y)))
             (sigmoid (add (relu v) (tanh s))) ;;
  new_h <-
    tanh (multiply (identity new_c)
            (sigmoid (multiply (sigmoid (add (tanh x) (tanh w)))
                               (sigmoid (add (identity u) (tanh t)))))) ;;
  pack self new_c new_h.

Definition call (k : NeatCell) :=
  match k with
  | BasicNeat => basic_call
  | AdvancedNeat => advanced_call
  end.

End SpecFused.

(* ================================================================= *)
(** * Concrete cells and arguments

    One unit, one input feature, batch size one. *)

Definition example_init (k : NeatCell) (state_is_tuple : bool) : Cell :=
  fst (cell_init k 1 1%R state_is_tuple None None None (Some float32)).

Definition example_cell (k : NeatCell) (state_is_tuple : bool) : Cell :=
  match cell_build k (example_init k state_is_tuple) [None; Some 1] with
  | Ok self => self
  | Raise _ => example_init k state_is_tuple
  end.

Definition row (l : list R) : Tensor := mkTensor 1 (length l) [l].

Definition zero_bias : Vec := repeat 0%R 8.

Definition zero_kernel : Tensor := mkTensor 2 8 [zero_bias; zero_bias].

(** A kernel whose only nonzero column is column [j], where both the
    input row and the hidden row hold 1. *)
Definition unit_column (j : nat) : Vec :=
  List.map (fun i => if i =? j then 1%R else 0%R) (seq 0 8).

Definition column_kernel (j : nat) : Tensor :=
  mkTensor 2 8 [unit_column j; unit_column j].

Definition example_state (state_is_tuple : bool) (c h : R)
  : Nested Tensor :=
  if state_is_tuple then LSTMStateTuple (row [c]) (row [h])
  else Single (row [c; h]).

(** The same cell with other values of the two constructor arguments
    [forget_bias] and [activation]. *)
Definition with_forget_bias_activation (self : Cell) (forget_bias : R)
           (activation : Activation) : Cell :=
  mkCell (_reuse self) (name self) (dtype self) (input_spec self)
         (_num_units self) forget_bias (_state_is_tuple self)
         activation (trainable_weights self)
         (_kernel self) (_bias self) (built self).

Definition result_map {A B} (f : A -> B) (r : Result A) : Result B :=
  match r with
  | Ok a => Ok (f a)
  | Raise e => Raise e
  end.

(** The variables [build] creates for input depth [d] and [n] units. *)
Definition kernel_variable (d n : nat) : LayerVariable :=
  {| var_name := _WEIGHTS_VARIABLE_NAME;
     var_shape := [d + n; 8 * n];
     var_initializer := None |}.

Definition bias_variable (n : nat) (dt : option DType) : LayerVariable :=
  {| var_name := _BIAS_VARIABLE_NAME;
     var_shape := [8 * n];
     var_initializer := Some (zeros_initializer dt) |}.

(* ================================================================= *)
(** * Notions for the further properties *)

(** Two batches put one under the other. *)
Definition stack_states (s1 s2 : Nested Tensor) : Nested Tensor :=
  match s1, s2 with
  | LSTMStateTuple c1 h1, LSTMStateTuple c2 h2 =>
      LSTMStateTuple (Dense.concat_rows c1 c2) (Dense.concat_rows h1 h2)
  | Single t1, Single t2 => Single (Dense.concat_rows t1 t2)
  | _, _ => s1
  end.



(** Between -1 and 1, both bounds included. *)
Definition within_unit (x : R) : Prop := (-1 <= x <= 1)%R.

(** Strictly between [- tanh 1] and [tanh 1]. *)
Definition below_tanh_1 (x : R) : Prop := (- tanh 1 < x < tanh 1)%R.

Definition is_zero (x : R) : Prop := x = 0%R.



(** A bias of length 8 that holds [y] at position [j] and 0 elsewhere. *)
Definition bias_at (j : nat) (y : R) : Vec :=
  List.map (fun i => if i =? j then y else 0%R) (seq 0 8).

(** A kernel whose input row is zero and whose hidden row holds 1 in
    column [j]. *)
Definition hidden_row_kernel (j : nat) : Tensor :=
  mkTensor 2 8 [zero_bias; unit_column j].

(* ================================================================= *)
(** * Lemmas: running the monad *)

Lemma bind_Ok {A B} (v : A) (l : list Op) (k : A -> M B) :
  bind (Ok (v, l)) k =
  match k v with
  | Raise e => Raise e
  | Ok (b, l2) => Ok (b, l ++ l2)
  end.
Proof. reflexivity. Qed.

Lemma unary_Ok o f x l :
  unary o f (Ok (x, l)) = Ok (Dense.map f x, l ++ [o]).
Proof. reflexivity. Qed.

Lemma same_shape_intro x y :
  t_rows x = t_rows y -> t_cols x = t_cols y -> same_shape x y = true.
Proof.
  intros Hr Hc. unfold same_shape.
  apply Nat.eqb_eq in Hr, Hc. now rewrite Hr, Hc.
Qed.

Lemma binary_Ok o f x y lx ly :
  same_shape x y = true ->
  binary o f (Ok (x, lx)) (Ok (y, ly)) =
  Ok (Dense.map2 f x y, lx ++ ly ++ [o]).
Proof. intros H. unfold binary. cbn. now rewrite H. Qed.

Lemma matmul_Ok a b la lb :
  t_cols a = t_rows b ->
  math_ops.matmul (Ok (a, la)) (Ok (b, lb)) =
  Ok (Dense.matmul a b, la ++ lb ++ [Op_matmul]).
Proof.
  intros H. unfold math_ops.matmul. cbn.
  apply Nat.eqb_eq in H. now rewrite H.
Qed.

Lemma bias_add_Ok v b l :
  length b = t_cols v ->
  nn_ops.bias_add (Ok (v, l)) b =
  Ok (Dense.bias_add v b, l ++ [Op_bias_add]).
Proof.
  intros H. unfold nn_ops.bias_add. cbn.
  apply Nat.eqb_eq in H. now rewrite H.
Qed.

Lemma split_sizes_Sizes sizes dim :
  list_sum sizes = dim -> split_sizes (Sizes sizes) dim = Some sizes.
Proof.
  intros H. unfold split_sizes. apply Nat.eqb_eq in H. now rewrite H.
Qed.

Lemma split_sizes_Num k q dim :
  0 < k -> dim = q * k -> split_sizes (Num k) dim = Some (repeat q k).
Proof.
  intros Hk ->. unfold split_sizes.
  rewrite Nat.Div0.mod_mul, Nat.div_mul by lia.
  apply Nat.ltb_lt in Hk. now rewrite Hk.
Qed.

Lemma split_cols_Sizes v sizes :
  list_sum sizes = t_cols v ->
  array_ops.split v (Sizes sizes) 1 =
  Ok (Dense.split_cols sizes v, [Op_split]).
Proof.
  intros H. unfold array_ops.split.
  now rewrite (@split_sizes_Sizes sizes _ H).
Qed.

Lemma split_rows_Sizes v sizes :
  list_sum sizes = t_rows v ->
  array_ops.split v (Sizes sizes) 0 =
  Ok (Dense.split_rows sizes v, [Op_split]).
Proof.
  intros H. unfold array_ops.split.
  now rewrite (@split_sizes_Sizes sizes _ H).
Qed.

Lemma split_cols_Num v k q :
  0 < k -> t_cols v = q * k ->
  array_ops.split v (Num k) 1 =
  Ok (Dense.split_cols (repeat q k) v, [Op_split]).
Proof.
  intros Hk H. unfold array_ops.split.
  now rewrite (@split_sizes_Num k q _ Hk H).
Qed.

Lemma split_vec_Sizes (v : Vec) sizes :
  list_sum sizes = length v ->
  array_ops.split_vec v (Sizes sizes) 0 =
  Ok (Dense.split_vec sizes v, [Op_split]).
Proof.
  intros H. unfold array_ops.split_vec.
  now rewrite (@split_sizes_Sizes sizes _ H).
Qed.

Lemma concat_cols_Ok x y :
  t_rows x = t_rows y ->
  array_ops.concat [x; y] 1 = Ok (Dense.concat_cols x y, [Op_concat]).
Proof.
  intros H. unfold array_ops.concat. cbn.
  apply Nat.eqb_eq in H. now rewrite H.
Qed.

Lemma length_slice {A} (off len : nat) (l : list A) :
  off + len <= length l -> length (Dense.slice off len l) = len.
Proof.
  intros H. unfold Dense.slice.
  rewrite length_firstn, length_skipn. lia.
Qed.

(** Side conditions on shapes. *)
Ltac shape_side :=
  cbn [t_rows t_cols Dense.map Dense.map2 Dense.matmul Dense.bias_add
       Dense.slice_rows Dense.slice_cols Dense.concat_cols
       Dense.concat_rows];
  simpl list_sum;
  rewrite ?length_slice by lia;
  first [ reflexivity | lia ].

(** One step of [call] on arguments whose shapes are known. *)
Ltac exec_step :=
  first
    [ rewrite bind_Ok
    | rewrite unary_Ok
    | rewrite binary_Ok by (apply same_shape_intro; shape_side)
    | rewrite matmul_Ok by shape_side
    | rewrite bias_add_Ok by shape_side
    | rewrite split_cols_Sizes by shape_side
    | rewrite split_rows_Sizes by shape_side
    | rewrite split_vec_Sizes by shape_side
    | rewrite concat_cols_Ok by shape_side
    | progress cbn [Dense.split_cols Dense.split_rows Dense.split_vec
                    Dense.pieces repeat] ].

Ltac exec_prepare :=
  unfold constant_op.constant, emit, iter2, as_tensor,
    math_ops.sigmoid, math_ops.tanh, math_ops.add, math_ops.multiply,
    gen_math_ops.maximum, nn_ops.relu, array_ops.identity,
    ret_tensor, ret.

(* ================================================================= *)
(** * Lemmas: [call] returns the closed forms *)

Section CallClosed.
Variables (self : Cell) (kernel : Tensor) (bias : Vec)
          (inputs : Tensor) (state : Nested Tensor).
Let n := _num_units self.
Let c := state_c n state.
Let h := state_h n state.

Hypothesis kernel_rows : t_rows kernel = t_cols inputs + n.
Hypothesis kernel_cols : t_cols kernel = 8 * n.
Hypothesis bias_length : length bias = 8 * n.

Lemma BasicNeatCell_call_closed :
  state_matches (t_rows inputs) (BasicNeatCell.state_size self) state ->
  let w := blocks (t_cols inputs) n (ratio BasicNeat n) kernel bias in
  BasicNeatCell.call self kernel bias inputs state =
  Ok ((BasicForm.new_h n w inputs c h,
       pack_state (_state_is_tuple self)
                  (BasicForm.new_c n w inputs c h)
                  (BasicForm.new_h n w inputs c h)),
      call_log BasicNeat (_state_is_tuple self)).
Proof.
  intros Hst w.
  unfold BasicNeatCell.call, BasicNeatCell.state_size in *.
  fold n in Hst |- *.
  destruct (_state_is_tuple self); destruct state as [c0 h0 | t0];
    try contradiction; cbn [state_matches has_shape] in Hst.
  - destruct Hst as [[Hcr Hcc] [Hhr Hhc]].
    exec_prepare. repeat exec_step.
    rewrite (@split_cols_Num _ 7 n) by shape_side.
    repeat exec_step. reflexivity.
  - destruct Hst as [Htr Htc].
    exec_prepare. repeat exec_step.
    rewrite (@split_cols_Num _ 2 n) by shape_side.
    repeat exec_step.
    rewrite (@split_cols_Num _ 7 n) by shape_side.
    repeat exec_step. reflexivity.
Qed.

Lemma AdvancedNeatCell_call_closed :
  state_matches (t_rows inputs) (AdvancedNeatCell.state_size self) state ->
  let w := blocks (t_cols inputs) n (ratio AdvancedNeat n) kernel bias in
  AdvancedNeatCell.call self kernel bias inputs state =
  Ok ((AdvancedForm.new_h n w inputs c h,
       pack_state (_state_is_tuple self)
                  (AdvancedForm.new_c n w inputs c h)
                  (AdvancedForm.new_h n w inputs c h)),
      call_log AdvancedNeat (_state_is_tuple self)).
Proof.
  intros Hst w.
  unfold AdvancedNeatCell.call, AdvancedNeatCell.state_size in *.
  fold n in Hst |- *.
  destruct (_state_is_tuple self); destruct state as [c0 h0 | t0];
    try contradiction; cbn [state_matches has_shape] in Hst.
  - destruct Hst as [[Hcr Hcc] [Hhr Hhc]].
    exec_prepare. repeat exec_step.
    rewrite (@split_cols_Num _ 5 n) by shape_side.
    repeat exec_step.
    rewrite (@split_cols_Num _ 3 n) by shape_side.
    repeat exec_step. reflexivity.
  - destruct Hst as [Htr Htc].
    exec_prepare. repeat exec_step.
    rewrite (@split_cols_Num _ 2 n) by shape_side.
    repeat exec_step.
    rewrite (@split_cols_Num _ 5 n) by shape_side.
    repeat exec_step.
    rewrite (@split_cols_Num _ 3 n) by shape_side.
    repeat exec_step. reflexivity.
Qed.

Lemma cell_call_closed (k : NeatCell) :
  state_matches (t_rows inputs) (cell_state_size k self) state ->
  let w := blocks (t_cols inputs) n (ratio k n) kernel bias in
  cell_call k self kernel bias inputs state =
  Ok ((closed_new_h k n w inputs c h,
       pack_state (_state_is_tuple self)
                  (closed_new_c k n w inputs c h)
                  (closed_new_h k n w inputs c h)),
      call_log k (_state_is_tuple self)).
Proof.
  destruct k; cbn [cell_call cell_state_size closed_new_c closed_new_h].
  - apply BasicNeatCell_call_closed.
  - apply AdvancedNeatCell_call_closed.
Qed.
End CallClosed.

(* ================================================================= *)
(** * Lemmas: what [build] leaves in the cell *)

Lemma cell_build_Ok k self0 b d :
  cell_build k self0 [b; Some d] =
  Ok (mkCell (_reuse self0) (name self0) (dtype self0) (input_spec self0)
             (_num_units self0) (_forget_bias self0)
             (_state_is_tuple self0) (_activation self0)
             (trainable_weights self0
                ++ [kernel_variable d (_num_units self0)]
                ++ [bias_variable (_num_units self0) (dtype self0)])
             (Some (kernel_variable d (_num_units self0)))
             (Some (bias_variable (_num_units self0) (dtype self0)))
             true).
Proof.
  destruct k; cbn; unfold set_built, set_bias, set_kernel; cbn;
    now rewrite <- app_assoc.
Qed.

Lemma built_shapes k self0 b self kernel bias inputs :
  cell_build k self0 [b; Some (t_cols inputs)] = Ok self ->
  variables_hold self kernel bias ->
  t_rows kernel = t_cols inputs + _num_units self /\
  t_cols kernel = 8 * _num_units self /\
  length bias = 8 * _num_units self.
Proof.
  rewrite cell_build_Ok. intros [= <-] [Hk Hb].
  cbn [_kernel _bias _num_units option_map var_shape kernel_variable
       bias_variable get_shape] in *.
  injection Hk as Hr Hc. injection Hb as Hl. auto.
Qed.

(** A time step of a built cell on arguments of the announced shapes. *)
Lemma cell_step k self0 b self kernel bias inputs state :
  cell_build k self0 [b; Some (t_cols inputs)] = Ok self ->
  variables_hold self kernel bias ->
  state_matches (t_rows inputs) (cell_state_size k self) state ->
  let n := _num_units self in
  let w := blocks (t_cols inputs) n (ratio k n) kernel bias in
  let c := state_c n state in
  let h := state_h n state in
  cell_call k self kernel bias inputs state =
  Ok ((closed_new_h k n w inputs c h,
       pack_state (_state_is_tuple self)
                  (closed_new_c k n w inputs c h)
                  (closed_new_h k n w inputs c h)),
      call_log k (_state_is_tuple self)).
Proof.
  intros Hbuild Hvars Hst.
  destruct (built_shapes _ _ _ _ Hbuild Hvars) as (Hr & Hc & Hl).
  now apply cell_call_closed.
Qed.

(* ================================================================= *)
(** * Lemmas: the nonlinearities on the reals *)

Local Open Scope R_scope.

Lemma exp_opp_inv x : exp x * exp (- x) = 1.
Proof. rewrite <- exp_plus, Rplus_opp_r. apply exp_0. Qed.

Lemma cosh_pos x : 0 < cosh x.
Proof.
  unfold cosh. pose proof (exp_pos x). pose proof (exp_pos (- x)). lra.
Qed.

Lemma tanh_zero : tanh 0 = 0.
Proof. unfold tanh, sinh. rewrite Ropp_0, exp_0. lra. Qed.

Lemma tanh_in_unit x : in_unit (tanh x).
Proof.
  pose proof (cosh_pos x) as Hc.
  pose proof (exp_pos x) as Hp. pose proof (exp_pos (- x)) as Hn.
  assert (Hs : - cosh x < sinh x < cosh x) by (unfold sinh, cosh; lra).
  assert (Hi : 0 < / cosh x) by now apply Rinv_0_lt_compat.
  assert (H1 : cosh x * / cosh x = 1) by (apply Rinv_r; lra).
  unfold in_unit, tanh, Rdiv. split; nra.
Qed.

Lemma tanh_increasing x y : x < y -> tanh x < tanh y.
Proof.
  intros Hxy.
  pose proof (cosh_pos x) as Hcx. pose proof (cosh_pos y) as Hcy.
  pose proof (exp_pos x) as Hx. pose proof (exp_pos (- x)) as Hnx.
  pose proof (exp_pos y) as Hy. pose proof (exp_pos (- y)) as Hny.
  pose proof (exp_opp_inv x) as Ex. pose proof (exp_opp_inv y) as Ey.
  assert (Hlt : exp x < exp y) by now apply exp_increasing.
  assert (Hcross : sinh x * cosh y < sinh y * cosh x).
  { unfold sinh, cosh.
    assert (exp x * exp (- y) < exp y * exp (- x)).
    { assert (exp x * exp (- y) * (exp y * exp x)
              < exp y * exp (- x) * (exp y * exp x)) by nra.
      apply Rmult_lt_reg_r with (exp y * exp x); nra. }
    nra. }
  unfold tanh, Rdiv.
  apply Rmult_lt_reg_r with (cosh x * cosh y); [nra |].
  replace (sinh x * / cosh x * (cosh x * cosh y)) with (sinh x * cosh y)
    by (field; lra).
  replace (sinh y * / cosh y * (cosh x * cosh y)) with (sinh y * cosh x)
    by (field; lra).
  exact Hcross.
Qed.



Lemma sigmoid_zero : sigmoid_R 0 = 1 / 2.
Proof. unfold sigmoid_R. rewrite Ropp_0, exp_0. lra. Qed.

Lemma relu_zero : relu_R 0 = 0.
Proof. unfold relu_R. apply Rmax_left. lra. Qed.

Lemma relu_nonneg x : 0 <= x -> relu_R x = x.
Proof. intros H. unfold relu_R. now apply Rmax_left. Qed.

Lemma mult_in_unit x y : in_unit x -> in_unit y -> in_unit (x * y).
Proof. unfold in_unit. intros Hx Hy. split; nra. Qed.

Local Close Scope R_scope.

(* ================================================================= *)
(** * Lemmas: entries of the pure operations *)

Lemma Forall_zipWith {A B C} (f : A -> B -> C)
      (P : A -> Prop) (Q : B -> Prop) (S : C -> Prop) u v :
  (forall a b, P a -> Q b -> S (f a b)) ->
  Forall P u -> Forall Q v -> Forall S (Dense.zipWith f u v).
Proof.
  intros Hf Hu. revert v.
  induction Hu as [| a u Ha Hu IH]; intros v Hv; cbn; [constructor |].
  destruct Hv as [| b v Hb Hv]; constructor; auto.
Qed.

Lemma all_entries_map (P : R -> Prop) f t :
  (forall x, P (f x)) -> all_entries P (Dense.map f t).
Proof.
  intros Hf. unfold all_entries. cbn.
  apply Forall_map, Forall_forall. intros rw _.
  apply Forall_map, Forall_forall. auto.
Qed.

Lemma all_entries_map2 (P Q S : R -> Prop) f x y :
  (forall a b, P a -> Q b -> S (f a b)) ->
  all_entries P x -> all_entries Q y ->
  all_entries S (Dense.map2 f x y).
Proof.
  intros Hf Hx Hy. unfold all_entries in *. cbn.
  eapply Forall_zipWith; eauto.
  intros u v Hu Hv. eapply Forall_zipWith; eauto.
Qed.


Lemma all_entries_tanh t : all_entries in_unit (Dense.map tanh t).
Proof. apply all_entries_map, tanh_in_unit. Qed.

Lemma basic_new_c_in_unit n w inputs c h :
  all_entries in_unit (BasicForm.new_c n w inputs c h).
Proof.
  unfold BasicForm.new_c, BasicForm.new_c_of.
  eapply all_entries_map2; [| apply all_entries_tanh ..].
  intros a b. apply mult_in_unit.
Qed.


(* ================================================================= *)
(** * Lemmas: the data agrees with the shape *)

Lemma length_zipWith {A B C} (f : A -> B -> C) u v :
  length (Dense.zipWith f u v) = Nat.min (length u) (length v).
Proof.
  revert v. induction u as [| a u IH]; intros [| b v]; cbn; auto.
Qed.

Lemma wf_map f t : wf t -> wf (Dense.map f t).
Proof.
  intros [Hr Hc]. split; cbn.
  - now rewrite length_map.
  - apply Forall_map. eapply Forall_impl; [| exact Hc].
    intros rw H. cbn. now rewrite length_map.
Qed.

Lemma wf_map2 f x y :
  wf x -> wf y -> t_rows x = t_rows y -> t_cols x = t_cols y ->
  wf (Dense.map2 f x y).
Proof.
  intros [Hxr Hxc] [Hyr Hyc] Hr Hc. split; cbn.
  - rewrite length_zipWith. lia.
  - eapply Forall_zipWith; [| exact Hxc | exact Hyc].
    cbn. intros u v Hu Hv. rewrite length_zipWith. lia.
Qed.

Lemma wf_matmul a b : wf a -> wf (Dense.matmul a b).
Proof.
  intros [Hr _]. split; cbn.
  - now rewrite length_map.
  - apply Forall_map, Forall_forall. intros rw _.
    now rewrite length_map, length_seq.
Qed.

Lemma wf_bias_add t (b : Vec) :
  wf t -> length b = t_cols t -> wf (Dense.bias_add t b).
Proof.
  intros [Hr Hc] Hb. split; cbn.
  - now rewrite length_map.
  - apply Forall_map. eapply Forall_impl; [| exact Hc].
    intros rw H. cbn in H |- *. rewrite length_zipWith. lia.
Qed.

Lemma wf_slice_cols off len t :
  wf t -> off + len <= t_cols t -> wf (Dense.slice_cols off len t).
Proof.
  intros [Hr Hc] Hle. split; cbn.
  - now rewrite length_map.
  - apply Forall_map. eapply Forall_impl; [| exact Hc].
    intros rw H. cbn in H |- *. apply length_slice. lia.
Qed.

Lemma Forall_slice {A} (P : A -> Prop) off len l :
  Forall P l -> Forall P (Dense.slice off len l).
Proof.
  intros H. unfold Dense.slice.
  assert (Hs : Forall P (skipn off l)).
  { rewrite <- (firstn_skipn off l) in H. now apply Forall_app in H. }
  rewrite <- (firstn_skipn len (skipn off l)) in Hs.
  now apply Forall_app in Hs.
Qed.

Lemma wf_slice_rows off len t :
  wf t -> off + len <= t_rows t -> wf (Dense.slice_rows off len t).
Proof.
  intros [Hr Hc] Hle. split; cbn.
  - apply length_slice. lia.
  - now apply Forall_slice.
Qed.

Lemma wf_concat_cols x y :
  wf x -> wf y -> t_rows x = t_rows y -> wf (Dense.concat_cols x y).
Proof.
  intros [Hxr Hxc] [Hyr Hyc] Hr. split; cbn.
  - rewrite length_zipWith. lia.
  - eapply Forall_zipWith; [| exact Hxc | exact Hyc].
    cbn. intros u v Hu Hv. rewrite length_app. lia.
Qed.

Lemma state_parts_wf n (state_is_tuple : bool) state B :
  state_wf state ->
  state_matches B
    (if state_is_tuple then LSTMStateTuple n n else Single (2 * n)) state ->
  wf (state_c n state) /\ wf (state_h n state) /\
  has_shape B n (state_c n state) /\ has_shape B n (state_h n state).
Proof.
  destruct state_is_tuple, state as [c h | t]; cbn; try contradiction.
  - intros [Hc Hh] [Hcs Hhs]. auto.
  - intros Ht [Hr Hc]. unfold has_shape. cbn.
    repeat split; auto; apply wf_slice_cols; auto; lia.
Qed.

Ltac wf_step :=
  first
    [ apply wf_map
    | apply wf_map2
    | apply wf_matmul
    | apply wf_bias_add
    | apply wf_slice_cols
    | apply wf_slice_rows
    | apply wf_concat_cols
    | assumption
    | shape_side ].

(** The shapes and the data of the closed forms. *)
Lemma closed_forms_wf k n kernel bias inputs c h B :
  wf inputs -> wf kernel -> wf c -> wf h ->
  t_rows inputs = B ->
  t_rows kernel = t_cols inputs + n -> t_cols kernel = 8 * n ->
  length bias = 8 * n ->
  has_shape B n c -> has_shape B n h ->
  let w := blocks (t_cols inputs) n (ratio k n) kernel bias in
  wf (closed_new_c k n w inputs c h) /\
  wf (closed_new_h k n w inputs c h) /\
  has_shape B n (closed_new_c k n w inputs c h) /\
  has_shape B n (closed_new_h k n w inputs c h).
Proof.
  intros Hx Hk Hc Hh HB Hkr Hkc Hb [Hcr Hcc] [Hhr Hhc] w.
  assert (Hshape : has_shape B n (closed_new_c k n w inputs c h) /\
                   has_shape B n (closed_new_h k n w inputs c h)).
  { destruct k; unfold has_shape; repeat split; cbn; lia. }
  destruct Hshape as [Hsc Hsh].
  assert (Hwc : wf (closed_new_c k n w inputs c h)).
  { destruct k;
      cbn [closed_new_c ratio blocks fst snd] in *;
      unfold BasicForm.new_c, BasicForm.new_c_of, BasicForm.gate,
        BasicForm.a, BasicForm.bh, AdvancedForm.new_c,
        AdvancedForm.gate5, AdvancedForm.gate3, AdvancedForm.sw,
        AdvancedForm.xz, w, blocks;
      cbn [W_fi W_fh W_ri W_rh b_f b_r fst snd nth Dense.split_cols
           Dense.pieces repeat ratio];
      repeat wf_step. }
  assert (Hwh : wf (closed_new_h k n w inputs c h)).
  { destruct k; apply wf_map; apply wf_map2;
      [ now apply wf_map | | cbn; lia | cbn; lia
      | now apply wf_map | | cbn; lia | cbn; lia ];
      unfold BasicForm.gate, BasicForm.bh, AdvancedForm.gate5,
        AdvancedForm.gate3, AdvancedForm.sw, AdvancedForm.xz, w, blocks;
      cbn [W_fi W_fh W_ri W_rh b_f b_r fst snd nth Dense.split_cols
           Dense.pieces repeat ratio];
      repeat wf_step. }
  auto.
Qed.

(* ================================================================= *)
(** * Lemmas: the blocks tile the kernel and the bias *)

Lemma slice_app {A} p q (l : list A) :
  length l = p + q -> Dense.slice 0 p l ++ Dense.slice p q l = l.
Proof.
  intros H. unfold Dense.slice. cbn [skipn].
  rewrite (firstn_all2 (n := q) (skipn p l))
    by (rewrite length_skipn; lia).
  apply firstn_skipn.
Qed.

Lemma zipWith_slice_app p q (D : list (list R)) :
  Forall (fun rw => length rw = p + q) D ->
  Dense.zipWith (@app R) (List.map (Dense.slice 0 p) D)
                         (List.map (Dense.slice p q) D) = D.
Proof.
  induction 1 as [| rw D Hrw HD IH]; cbn; [reflexivity |].
  rewrite IH. f_equal. now apply slice_app.
Qed.

Lemma assemble_blocks d n p q kernel (bias : Vec) :
  wf kernel -> t_rows kernel = d + n -> t_cols kernel = p + q ->
  length bias = p + q ->
  assemble (blocks d n (p, q) kernel bias) = (kernel, bias).
Proof.
  destruct kernel as [r k D]. intros [Hr Hc] Hrows Hcols Hb.
  cbn in Hr, Hc, Hrows, Hcols. subst r k.
  unfold assemble, blocks. cbn [W_fi W_fh W_ri W_rh b_f b_r fst snd].
  rewrite (slice_app p q bias Hb). f_equal.
  unfold Dense.concat_cols, Dense.concat_rows, Dense.slice_rows,
    Dense.slice_cols. cbn [t_rows t_cols t_data].
  rewrite !slice_app by (rewrite length_map; lia).
  rewrite zipWith_slice_app by assumption.
  now rewrite Hrows.
Qed.

(* ================================================================= *)
(** * Lemmas: [call] raises no exception of its own *)

Lemma framework_only_bind {A B} (m : M A) (k : A -> M B) :
  framework_only m -> (forall v, framework_only (k v)) ->
  framework_only (bind m k).
Proof.
  intros Hm Hk e. unfold bind.
  destruct m as [[v l] | e']; [| intros [= <-]; now apply Hm].
  specialize (Hk v). destruct (k v) as [[b l2] | e'']; [discriminate |].
  intros [= <-]. now apply Hk.
Qed.

Lemma framework_only_emit {A} o (r : option A) : framework_only (emit o r).
Proof. intros e. destruct r; cbn; congruence. Qed.

Lemma framework_only_ret {A} (a : A) : framework_only (ret a).
Proof. intros e. discriminate. Qed.

Lemma framework_only_raise {A} : framework_only (@Raise (A * list Op) FrameworkError).
Proof. intros e. congruence. Qed.

Lemma framework_only_unary o f mx :
  framework_only mx -> framework_only (unary o f mx).
Proof.
  intros H. apply framework_only_bind; [exact H | intros].
  apply framework_only_emit.
Qed.

Lemma framework_only_binary o f mx my :
  framework_only mx -> framework_only my ->
  framework_only (binary o f mx my).
Proof.
  intros Hx Hy. apply framework_only_bind; [exact Hx | intros].
  apply framework_only_bind; [exact Hy | intros].
  apply framework_only_emit.
Qed.

Lemma framework_only_matmul ma mb :
  framework_only ma -> framework_only mb ->
  framework_only (math_ops.matmul ma mb).
Proof.
  intros Ha Hb. apply framework_only_bind; [exact Ha | intros].
  apply framework_only_bind; [exact Hb | intros].
  apply framework_only_emit.
Qed.

Lemma framework_only_bias_add mv b :
  framework_only mv -> framework_only (nn_ops.bias_add mv b).
Proof.
  intros H. apply framework_only_bind; [exact H | intros].
  apply framework_only_emit.
Qed.

Ltac framework_step :=
  first
    [ apply framework_only_ret
    | apply framework_only_raise
    | apply framework_only_emit
    | apply framework_only_unary
    | apply framework_only_binary
    | apply framework_only_matmul
    | apply framework_only_bias_add
    | apply framework_only_bind; [| intros ?]
    | match goal with
      | |- framework_only (match ?x with _ => _ end) => destruct x
      | |- framework_only (if ?b then _ else _) => destruct b
      end ].

Lemma cell_call_framework_only k self kernel bias inputs state :
  framework_only (cell_call k self kernel bias inputs state).
Proof.
  destruct k; cbn [cell_call];
    unfold BasicNeatCell.call, AdvancedNeatCell.call,
      constant_op.constant, iter2, as_tensor,
      array_ops.split, array_ops.split_vec, array_ops.concat,
      math_ops.sigmoid, math_ops.tanh, math_ops.add, math_ops.multiply,
      gen_math_ops.maximum, nn_ops.relu, array_ops.identity, ret_tensor;
    repeat framework_step.
Qed.

(* ================================================================= *)
(** * Concrete runs *)

Ltac evaluate :=
  cbv -[Rplus Rmult Rmax tanh sigmoid_R relu_R identity_R IZR Rdiv Rinv
        Ropp exp Rlt Rle].

(** Arithmetic on the constants 0 and 1 and the nonlinearities at 0. *)
Ltac real_normalize :=
  unfold identity_R;
  repeat first
    [ rewrite Rmult_0_r | rewrite Rmult_0_l
    | rewrite Rplus_0_r | rewrite Rplus_0_l
    | rewrite Rmult_1_r | rewrite Rmult_1_l
    | rewrite tanh_zero | rewrite relu_zero | rewrite sigmoid_zero
    | rewrite (Rmax_left 0 0) by lra
    | rewrite (Rmax_left 1 1) by lra
    | rewrite (@relu_nonneg 1%R) by lra
    | rewrite (@relu_nonneg (1 + 1)%R) by lra ].


Lemma example_build k state_is_tuple :
  cell_build k (example_init k state_is_tuple) [None; Some 1] =
  Ok (example_cell k state_is_tuple).
Proof. destruct k, state_is_tuple; reflexivity. Qed.

Lemma example_state_matches k state_is_tuple c h :
  state_matches 1 (cell_state_size k (example_cell k state_is_tuple))
                (example_state state_is_tuple c h).
Proof. destruct k, state_is_tuple; cbn; unfold has_shape; auto. Qed.

(** With a zero kernel and a zero bias the Advanced cell halves the cell
    state: from [c = 4] it reaches [new_c = 2]. *)
Lemma advanced_zero_kernel_step :
  exists new_h log,
    cell_call AdvancedNeat (example_cell AdvancedNeat true)
              zero_kernel zero_bias (row [0%R])
              (LSTMStateTuple (row [4%R]) (row [0%R])) =
    Ok ((new_h, LSTMStateTuple (row [2%R]) new_h), log).
Proof.
  eexists. eexists. evaluate. real_normalize.
  replace (4 * (1 / 2))%R with 2%R by lra. reflexivity.
Qed.


(* ================================================================= *)
(** * The claims *)

(** C1 -- For every built cell of either class, every rank-2 input and
    every previous state of the announced shapes, [call] returns the pair
    (output, new_state): the output is the new hidden state [new_h], and
    the new state carries [new_c] and [new_h], as an [LSTMStateTuple]
    when [state_is_tuple] is true and as their column-wise concatenation
    otherwise.  [new_c] and [new_h] are the closed forms of the cell. *)
Theorem call_returns_hidden_and_state
        k self0 b self kernel bias inputs state :
  cell_build k self0 [b; Some (t_cols inputs)] = Ok self ->
  variables_hold self kernel bias ->
  state_matches (t_rows inputs) (cell_state_size k self) state ->
  exists new_c new_h log,
    cell_call k self kernel bias inputs state =
    Ok ((new_h,
         if _state_is_tuple self then LSTMStateTuple new_c new_h
         else Single (Dense.concat_cols new_c new_h)),
        log) /\
    let n := _num_units self in
    let w := blocks (t_cols inputs) n (ratio k n) kernel bias in
    new_c = closed_new_c k n w inputs (state_c n state) (state_h n state) /\
    new_h = closed_new_h k n w inputs (state_c n state) (state_h n state).
Proof.
  intros Hbuild Hvars Hst.
  do 3 eexists. split.
  - rewrite (cell_step _ _ _ _ _ Hbuild Hvars Hst). reflexivity.
  - cbn. split; reflexivity.
Qed.

Lemma call_returns_hidden_and_state_witness :
  exists new_c new_h log,
    cell_call BasicNeat (example_cell BasicNeat false)
              zero_kernel zero_bias (row [0%R])
              (example_state false 4 0) =
    Ok ((new_h,
         if _state_is_tuple (example_cell BasicNeat false)
         then LSTMStateTuple new_c new_h
         else Single (Dense.concat_cols new_c new_h)),
        log) /\
    let n := _num_units (example_cell BasicNeat false) in
    let w := blocks (t_cols (row [0%R])) n (ratio BasicNeat n)
                    zero_kernel zero_bias in
    new_c = closed_new_c BasicNeat n w (row [0%R])
                         (state_c n (example_state false 4 0))
                         (state_h n (example_state false 4 0)) /\
    new_h = closed_new_h BasicNeat n w (row [0%R])
                         (state_c n (example_state false 4 0))
                         (state_h n (example_state false 4 0)).
Proof.
  apply (@call_returns_hidden_and_state
           BasicNeat (example_init BasicNeat false) None).
  - reflexivity.
  - split; reflexivity.
  - cbn. unfold has_shape. split; reflexivity.
Defined.


(** C3, the claim as stated fails -- [AdvancedNeatCell.call] on the zero
    kernel calls the elementwise maximum, an arithmetic operation that
    the specification does not name. *)
Lemma maximum_in_advanced_call :
  exists out log,
    cell_call AdvancedNeat (example_cell AdvancedNeat true)
              zero_kernel zero_bias (row [0%R])
              (LSTMStateTuple (row [4%R]) (row [0%R])) = Ok (out, log) /\
    In Op_maximum log /\
    arithmetic Op_maximum = true /\ named_in_spec Op_maximum = false.
Proof.
  destruct advanced_zero_kernel_step as (new_h & log & Hcall).
  exists (new_h, LSTMStateTuple (row [2%R]) new_h), log.
  split; [exact Hcall |].
  split; [| split; reflexivity].
  rewrite (@cell_step AdvancedNeat (example_init AdvancedNeat true) None)
    in Hcall.
  - injection Hcall as _ _ _ <-. cbn.
    repeat first [left; reflexivity | right].
  - reflexivity.
  - split; reflexivity.
  - cbn. unfold has_shape. repeat split; reflexivity.
Qed.

(** C3, amended -- For both cells the arithmetic that combines the gate
    sub-vectors into [new_c] and [new_h] (everything [call] does after
    its last split, up to the packing of the state) uses only sigmoid,
    tanh, relu, identity and elementwise addition and multiplication.
    In the whole of [call], [BasicNeatCell] uses no elementwise maximum,
    and every arithmetic operation it calls is one the specification
    names; [AdvancedNeatCell] uses exactly one elementwise maximum. *)
Theorem arithmetic_of_call k self0 b self kernel bias inputs state :
  cell_build k self0 [b; Some (t_cols inputs)] = Ok self ->
  variables_hold self kernel bias ->
  state_matches (t_rows inputs) (cell_state_size k self) state ->
  exists out log,
    cell_call k self kernel bias inputs state = Ok (out, log) /\
    after_last_split log =
      combine_log k ++ pack_log (_state_is_tuple self) /\
    forallb combine_op (combine_log k) = true /\
    count Op_maximum log =
      match k with BasicNeat => 0 | AdvancedNeat => 1 end /\
    (k = BasicNeat ->
     Forall (fun o => arithmetic o = true -> named_in_spec o = true) log).
Proof.
  intros Hbuild Hvars Hst.
  do 2 eexists. split.
  - apply (cell_step _ _ _ _ _ Hbuild Hvars Hst).
  - unfold call_log.
    destruct k, (_state_is_tuple self);
      (split; [reflexivity |]); (split; [reflexivity |]);
      (split; [reflexivity |]); intros Hk; try discriminate Hk;
      cbn [app unpack_log pack_log projection_log combine_log];
      repeat (apply Forall_cons;
              [cbn; intros; first [reflexivity | discriminate] |]);
      apply Forall_nil.
Qed.

Lemma arithmetic_of_call_witness :
  exists out log,
    cell_call BasicNeat (example_cell BasicNeat true)
              zero_kernel zero_bias (row [0%R])
              (example_state true 4 0) = Ok (out, log) /\
    count Op_maximum log = 0.
Proof.
  destruct (@arithmetic_of_call
              BasicNeat (example_init BasicNeat true) None
              (example_cell BasicNeat true) zero_kernel zero_bias
              (row [0%R]) (example_state true 4 0))
    as (out & log & Hcall & _ & _ & Hcount & _).
  - reflexivity.
  - split; reflexivity.
  - cbn. unfold has_shape. repeat split; reflexivity.
  - exists out, log. split; [exact Hcall | exact Hcount].
Defined.

(** C4 -- The only exception either cell raises itself is the shape check
    of [build]: on the shape of a rank-2 input, [build] raises
    [ValueError] exactly when the last dimension is unknown, it raises
    nothing else, and when the dimension is known it completes; [call]
    never raises an exception of the cell's own, whatever it is given. *)
Theorem only_build_raises k self b d :
  (cell_build k self [b; d] =
     Raise (ValueError unknown_depth_message [b; d]) <-> d = None) /\
  (forall e, cell_build k self [b; d] = Raise e ->
             e = ValueError unknown_depth_message [b; d]) /\
  (forall input_depth, d = Some input_depth ->
     exists self', cell_build k self [b; d] = Ok self' /\
                   built self' = true) /\
  (forall kernel bias inputs state,
     framework_only (cell_call k self kernel bias inputs state)).
Proof.
  repeat split.
  - destruct d as [input_depth |]; [| reflexivity].
    rewrite cell_build_Ok. discriminate.
  - intros ->. destruct k; reflexivity.
  - destruct d as [input_depth |].
    + rewrite cell_build_Ok. discriminate.
    + destruct k; cbn; congruence.
  - intros input_depth ->. rewrite cell_build_Ok.
    eexists. split; reflexivity.
  - intros. apply cell_call_framework_only.
Qed.

Lemma only_build_raises_witness :
  cell_build AdvancedNeat (example_init AdvancedNeat true) [Some 3; None] =
  Raise (ValueError unknown_depth_message [Some 3; None]).
Proof.
  apply (proj1 (only_build_raises AdvancedNeat
                  (example_init AdvancedNeat true) (Some 3) None)).
  reflexivity.
Defined.

(** C5 -- Each cell allocates exactly one kernel, of shape
    [[input_depth + num_units, 8 * num_units]], and one bias, of shape
    [[8 * num_units]], and no other variable: [build], on a cell as the
    constructor and the first call leave it, completes and registers
    exactly these two, the kernel with the default initializer and the
    bias with zeros of the dtype of the layer.  Every weight block and
    bias part that [call] uses is a piece of that kernel and that bias:
    for values of the two variables, the pieces put back together are
    the kernel and the bias, and the result of [call] is computed from
    the pieces. *)
Theorem one_kernel_one_bias
        k num_units forget_bias state_is_tuple activation reuse nm dt
        input_dtype b d :
  let self0 :=
    infer_dtype input_dtype
      (fst (cell_init k num_units forget_bias state_is_tuple
                      activation reuse nm dt)) in
  let n := num_units in
  let layer_dtype :=
    match dt with Some t => t | None => input_dtype end in
  let kernel_var :=
    {| var_name := _WEIGHTS_VARIABLE_NAME;
       var_shape := [d + n; 8 * n];
       var_initializer := None |} in
  let bias_var :=
    {| var_name := _BIAS_VARIABLE_NAME;
       var_shape := [8 * n];
       var_initializer := Some (zeros_initializer (Some layer_dtype)) |} in
  trainable_weights self0 = [] /\
  exists self,
    cell_build k self0 [b; Some d] = Ok self /\
    trainable_weights self = [kernel_var; bias_var] /\
    _kernel self = Some kernel_var /\
    _bias self = Some bias_var /\
    forall kernel bias inputs state,
      t_cols inputs = d ->
      variables_hold self kernel bias ->
      wf kernel ->
      state_matches (t_rows inputs) (cell_state_size k self) state ->
      get_shape kernel = [d + n; 8 * n] /\
      length bias = 8 * n /\
      let w := blocks d n (ratio k n) kernel bias in
      assemble w = (kernel, bias) /\
      cell_call k self kernel bias inputs state =
      Ok ((closed_new_h k n w inputs (state_c n state) (state_h n state),
           pack_state state_is_tuple
             (closed_new_c k n w inputs (state_c n state)
                           (state_h n state))
             (closed_new_h k n w inputs (state_c n state)
                           (state_h n state))),
          call_log k state_is_tuple).
Proof.
  intros self0 n layer_dtype kernel_var bias_var.
  assert (Hw : trainable_weights self0 = [])
    by (destruct k, dt; reflexivity).
  assert (Hn : _num_units self0 = n) by (destruct k, dt; reflexivity).
  assert (Ht : _state_is_tuple self0 = state_is_tuple)
    by (destruct k, dt; reflexivity).
  assert (Hd : dtype self0 = Some layer_dtype)
    by (destruct k, dt; reflexivity).
  split; [exact Hw |].
  rewrite cell_build_Ok. eexists. split; [reflexivity |].
  cbn [trainable_weights _kernel _bias].
  unfold kernel_variable, bias_variable. rewrite Hw, Hn, Hd.
  split; [reflexivity |]. split; [reflexivity |]. split; [reflexivity |].
  intros kernel bias inputs state Hcols [Hk Hb] Hwf Hst.
  unfold get_shape in Hk.
  cbn [_kernel _bias option_map var_shape] in Hk, Hb.
  injection Hk as Hr Hc. injection Hb as Hb.
  split; [unfold get_shape; now rewrite <- Hr, <- Hc |].
  split; [now rewrite <- Hb |].
  cbv zeta. split.
  - destruct k; cbn [ratio]; apply assemble_blocks; auto; lia.
  - subst d.
    rewrite cell_call_closed; cbn [_num_units _state_is_tuple];
      rewrite ?Hn, ?Ht; auto.
    destruct k, dt; exact Hst.
Qed.

Lemma one_kernel_one_bias_witness :
  (exists self,
      cell_build BasicNeat
        (infer_dtype float32
           (fst (cell_init BasicNeat 1 1%R true None None None None)))
        [None; Some 1] = Ok self /\
      trainable_weights self =
        [kernel_variable 1 1; bias_variable 1 (Some float32)] /\
      assemble (blocks 1 1 (ratio BasicNeat 1) (column_kernel 0) zero_bias) =
        (column_kernel 0, zero_bias)) /\
  (exists self,
      cell_build AdvancedNeat
        (infer_dtype float32
           (fst (cell_init AdvancedNeat 1 1%R false None None None None)))
        [None; Some 1] = Ok self /\
      trainable_weights self =
        [kernel_variable 1 1; bias_variable 1 (Some float32)] /\
      assemble (blocks 1 1 (ratio AdvancedNeat 1) (column_kernel 6)
                       zero_bias) =
        (column_kernel 6, zero_bias)).
Proof.
  split.
  - destruct (@one_kernel_one_bias
                BasicNeat 1 1%R true None None None None float32 None 1)
      as (_ & self & Hbuild & Hvars & _ & _ & Hcall).
    exists self. split; [exact Hbuild |]. split; [exact Hvars |].
    injection Hbuild as <-.
    apply (Hcall (column_kernel 0) zero_bias (row [0%R])
                 (example_state true 4 0)).
    + reflexivity.
    + split; reflexivity.
    + split; cbn; [reflexivity | repeat constructor].
    + cbn. unfold has_shape. repeat split; reflexivity.
  - destruct (@one_kernel_one_bias
                AdvancedNeat 1 1%R false None None None None float32 None 1)
      as (_ & self & Hbuild & Hvars & _ & _ & Hcall).
    exists self. split; [exact Hbuild |]. split; [exact Hvars |].
    injection Hbuild as <-.
    apply (Hcall (column_kernel 6) zero_bias (row [0%R])
                 (example_state false 4 0)).
    + reflexivity.
    + split; reflexivity.
    + split; cbn; [reflexivity | repeat constructor].
    + cbn. unfold has_shape. repeat split; reflexivity.
Defined.





(** C8 -- In [BasicNeatCell.call] the name [h] is rebound by the split of
    the second projection, so the [relu(h)] of the [new_c] formula reads
    the seventh gate of that projection and not the previous hidden
    state.  The previous hidden state reaches the result only through
    its two matrix products: two states with the same cell state whose
    hidden states have the same two products give the same result. *)
Theorem relu_reads_seventh_gate
        self0 b self kernel bias inputs state state' :
  cell_build BasicNeat self0 [b; Some (t_cols inputs)] = Ok self ->
  variables_hold self kernel bias ->
  state_matches (t_rows inputs) (BasicNeatCell.state_size self) state ->
  state_matches (t_rows inputs) (BasicNeatCell.state_size self) state' ->
  let n := _num_units self in
  let w := blocks (t_cols inputs) n (ratio BasicNeat n) kernel bias in
  let c := state_c n state in
  let hf := Dense.matmul (state_h n state) (W_fh w) in
  let hr := Dense.matmul (state_h n state) (W_rh w) in
  let a :=
    Dense.bias_add
      (Dense.map2 Rmult hf (Dense.matmul inputs (W_fi w))) (b_f w) in
  let bh :=
    Dense.bias_add
      (Dense.map2 Rplus hr (Dense.matmul inputs (W_ri w))) (b_r w) in
  let gate i := nth i (Dense.split_cols (repeat n 7) bh) empty_tensor in
  let new_c :=
    Dense.map2 Rmult
      (Dense.map tanh
         (Dense.map2 Rplus c
            (Dense.map tanh
               (Dense.map2 Rmult (Dense.map relu_R (gate 6))
                                 (Dense.map sigmoid_R (gate 5))))))
      (Dense.map tanh
         (Dense.map2 Rplus (Dense.map sigmoid_R (gate 2))
                           (Dense.map relu_R a))) in
  (exists new_h log,
      BasicNeatCell.call self kernel bias inputs state =
      Ok ((new_h, pack_state (_state_is_tuple self) new_c new_h), log)) /\
  (state_c n state' = c ->
   Dense.matmul (state_h n state') (W_fh w) = hf ->
   Dense.matmul (state_h n state') (W_rh w) = hr ->
   BasicNeatCell.call self kernel bias inputs state' =
   BasicNeatCell.call self kernel bias inputs state).
Proof.
  intros Hbuild Hvars Hst Hst' n w c hf hr a bh gate new_c.
  pose proof (@cell_step BasicNeat _ _ _ _ _ _ _ Hbuild Hvars Hst) as H.
  pose proof (@cell_step BasicNeat _ _ _ _ _ _ _ Hbuild Hvars Hst') as H'.
  cbn [cell_call closed_new_c closed_new_h] in H, H'.
  split.
  - do 2 eexists. rewrite H. reflexivity.
  - intros Hc Hf Hr. rewrite H, H'.
    unfold BasicForm.new_h, BasicForm.new_c.
    fold n. fold w. rewrite Hc, Hf, Hr. reflexivity.
Qed.

Lemma relu_reads_seventh_gate_witness :
  BasicNeatCell.call (example_cell BasicNeat true) zero_kernel zero_bias
                     (row [0%R]) (example_state true 4 2) =
  BasicNeatCell.call (example_cell BasicNeat true) zero_kernel zero_bias
                     (row [0%R]) (example_state true 4 1).
Proof.
  apply (proj2 (@relu_reads_seventh_gate
                  (example_init BasicNeat true) None
                  (example_cell BasicNeat true) zero_kernel zero_bias
                  (row [0%R]) (example_state true 4 1)
                  (example_state true 4 2)
                  (example_build BasicNeat true)
                  (conj eq_refl eq_refl)
                  (example_state_matches BasicNeat true 4 1)
                  (example_state_matches BasicNeat true 4 2))).
  - reflexivity.
  - cbv -[Rplus Rmult IZR]. rewrite !Rmult_0_r. reflexivity.
  - cbv -[Rplus Rmult IZR]. rewrite !Rmult_0_r. reflexivity.
Defined.

(** C10 -- The result of [call] does not depend on the constructor
    arguments [forget_bias] and [activation]: two runs of a cell that
    differ only in these two arguments return the same output, the same
    new state and the same log; [call] returns the same on a cell whose
    two stored fields are replaced, and [build] does the same work on
    it. *)
Theorem forget_bias_and_activation_unused k :
  (forall num_units forget_bias forget_bias' state_is_tuple
          activation activation' reuse nm dt
          inputs_shape kernel bias inputs state,
      run k num_units forget_bias state_is_tuple activation reuse nm dt
          inputs_shape kernel bias inputs state =
      run k num_units forget_bias' state_is_tuple activation' reuse nm dt
          inputs_shape kernel bias inputs state) /\
  (forall self forget_bias activation kernel bias inputs state,
      cell_call k (with_forget_bias_activation self forget_bias activation)
                kernel bias inputs state =
      cell_call k self kernel bias inputs state) /\
  (forall self forget_bias activation inputs_shape,
      cell_build k
        (with_forget_bias_activation self forget_bias activation)
        inputs_shape =
      result_map
        (fun built_self =>
           with_forget_bias_activation built_self forget_bias activation)
        (cell_build k self inputs_shape)).
Proof.
  repeat split.
  - intros. unfold run.
    destruct k; cbn [cell_build cell_init cell_call fst];
      unfold BasicNeatCell.build, AdvancedNeatCell.build;
      destruct (nth_error inputs_shape 1) as [[input_depth |] |];
      reflexivity.
  - intros. destruct k; reflexivity.
  - intros. destruct k; cbn [cell_build];
      unfold BasicNeatCell.build, AdvancedNeatCell.build;
      destruct (nth_error inputs_shape 1) as [[input_depth |] |];
      reflexivity.
Qed.

(* ================================================================= *)
(** * Further properties *)

(** ** Concatenated and tuple states *)

Lemma slice_left_app {A} n (u v : list A) :
  length u = n -> Dense.slice 0 n (u ++ v) = u.
Proof.
  intros H. unfold Dense.slice. cbn [skipn].
  rewrite firstn_app, H, Nat.sub_diag. cbn [firstn].
  rewrite app_nil_r. apply firstn_all2. lia.
Qed.

Lemma slice_right_app {A} n (u v : list A) :
  length u = n -> length v = n -> Dense.slice n n (u ++ v) = v.
Proof.
  intros Hu Hv. unfold Dense.slice.
  rewrite skipn_app, Hu, Nat.sub_diag. cbn [skipn].
  rewrite (skipn_all2 (n := n) u) by lia. cbn [app].
  apply firstn_all2. lia.
Qed.

Lemma map_slice_zipWith_app_left n (C H : list (list R)) :
  length C = length H -> Forall (fun rw => length rw = n) C ->
  List.map (Dense.slice 0 n) (Dense.zipWith (@app R) C H) = C.
Proof.
  revert H. induction C as [| u C IH]; intros [| v H] Hlen HC;
    cbn in *; try discriminate; [reflexivity |].
  inversion HC as [| ? ? Hu HC']; subst.
  rewrite IH by (auto; lia). now rewrite slice_left_app.
Qed.

Lemma map_slice_zipWith_app_right n (C H : list (list R)) :
  length C = length H ->
  Forall (fun rw => length rw = n) C ->
  Forall (fun rw => length rw = n) H ->
  List.map (Dense.slice n n) (Dense.zipWith (@app R) C H) = H.
Proof.
  revert H. induction C as [| u C IH]; intros [| v H] Hlen HC HH;
    cbn in *; try discriminate; [reflexivity |].
  inversion HC as [| ? ? Hu HC']; subst.
  inversion HH as [| ? ? Hv HH']; subst.
  rewrite IH by (auto; lia). now rewrite slice_right_app.
Qed.

Lemma split_concat_cols c h n :
  wf c -> wf h -> t_rows c = t_rows h -> t_cols c = n -> t_cols h = n ->
  Dense.slice_cols 0 n (Dense.concat_cols c h) = c /\
  Dense.slice_cols n n (Dense.concat_cols c h) = h.
Proof.
  destruct c as [rc kc C], h as [rh kh H].
  intros [HCr HCc] [HHr HHc] Hr Hc Hh. cbn in *. subst.
  unfold Dense.slice_cols, Dense.concat_cols. cbn [t_rows t_cols t_data].
  rewrite map_slice_zipWith_app_left, map_slice_zipWith_app_right
    by (auto; lia).
  split; [reflexivity | now rewrite Hr].
Qed.

(** X1 -- [state_is_tuple] only changes how the state is packed: on the
    same kernel, bias and inputs, a cell with [state_is_tuple = False]
    given the column-wise concatenation of [c] and [h] returns the same
    output as a cell with [state_is_tuple = True] given the pair, and as
    new state the concatenation of the pair the other returns. *)
Theorem concatenated_state_agrees_with_tuple
        k self_t self_f kernel bias inputs c h :
  _state_is_tuple self_t = true ->
  _state_is_tuple self_f = false ->
  _num_units self_f = _num_units self_t ->
  let n := _num_units self_t in
  t_rows kernel = t_cols inputs + n ->
  t_cols kernel = 8 * n ->
  length bias = 8 * n ->
  has_shape (t_rows inputs) n c -> has_shape (t_rows inputs) n h ->
  wf c -> wf h ->
  exists new_c new_h log_t log_f,
    cell_call k self_t kernel bias inputs (LSTMStateTuple c h) =
      Ok ((new_h, LSTMStateTuple new_c new_h), log_t) /\
    cell_call k self_f kernel bias inputs
              (Single (Dense.concat_cols c h)) =
      Ok ((new_h, Single (Dense.concat_cols new_c new_h)), log_f).
Proof.
  intros Ht Hf Hn n Hkr Hkc Hb [Hcr Hcc] [Hhr Hhc] Hwc Hwh.
  destruct (@split_concat_cols c h n) as [Hsc Hsh]; auto; try lia.
  assert (Hsize_t : cell_state_size k self_t = LSTMStateTuple n n)
    by (destruct k; cbn; unfold BasicNeatCell.state_size,
          AdvancedNeatCell.state_size; now rewrite Ht).
  assert (Hsize_f : cell_state_size k self_f = Single (2 * n))
    by (destruct k; cbn; unfold BasicNeatCell.state_size,
          AdvancedNeatCell.state_size; now rewrite Hf, Hn).
  do 4 eexists. split.
  - rewrite cell_call_closed; auto.
    + rewrite Ht. cbn [pack_state state_c state_h]. reflexivity.
    + rewrite Hsize_t. cbn. unfold has_shape. auto.
  - rewrite cell_call_closed; try (rewrite Hn; auto; fail).
    + rewrite Hf, Hn. cbn [pack_state state_c state_h]. fold n.
      rewrite Hsc, Hsh. reflexivity.
    + rewrite Hsize_f. cbn. unfold has_shape. cbn. lia.
Qed.

(** ** Bounds on the Basic cell *)

Local Open Scope R_scope.

Lemma tanh_opp x : tanh (- x) = - tanh x.
Proof.
  pose proof (cosh_pos x) as Hc.
  unfold tanh, sinh, cosh in *. rewrite Ropp_involutive.
  field. lra.
Qed.


Lemma tanh_below_tanh_1 x : in_unit x -> below_tanh_1 (tanh x).
Proof.
  intros [Hl Hu]. unfold below_tanh_1. split.
  - rewrite <- tanh_opp. now apply tanh_increasing.
  - now apply tanh_increasing.
Qed.


Local Close Scope R_scope.

Lemma all_entries_map_impl (P Q : R -> Prop) f t :
  (forall x, P x -> Q (f x)) ->
  all_entries P t -> all_entries Q (Dense.map f t).
Proof.
  intros Hf Ht. unfold all_entries in *. cbn.
  apply Forall_map. eapply Forall_impl; [| exact Ht].
  intros rw Hrw. apply Forall_map. eapply Forall_impl; [| exact Hrw].
  exact Hf.
Qed.


Lemma basic_new_h_below_tanh_1 n w inputs c h :
  all_entries below_tanh_1 (BasicForm.new_h n w inputs c h).
Proof.
  unfold BasicForm.new_h, BasicForm.new_h_of.
  apply all_entries_map_impl with (P := in_unit);
    [exact tanh_below_tanh_1 |].
  apply all_entries_map2 with (P := in_unit) (Q := in_unit).
  - intros a b. apply mult_in_unit.
  - apply all_entries_map_impl with (P := in_unit);
      [intros x Hx; exact Hx |].
    apply basic_new_c_in_unit.
  - apply all_entries_tanh.
Qed.


Section BasicBounds.
Variables (self : Cell) (kernel : Tensor) (bias : Vec)
          (inputs : Tensor) (state : Nested Tensor).
Let n := _num_units self.

Hypothesis kernel_rows : t_rows kernel = t_cols inputs + n.
Hypothesis kernel_cols : t_cols kernel = 8 * n.
Hypothesis bias_length : length bias = 8 * n.
Hypothesis state_ok :
  state_matches (t_rows inputs) (BasicNeatCell.state_size self) state.

(** X2 -- The hidden output of [BasicNeatCell] is bounded away from -1
    and 1: every entry of [new_h] lies strictly between [- tanh 1] and
    [tanh 1], because it is the [tanh] of a product of two numbers of
    absolute value below 1. *)
Theorem basic_output_below_tanh_1 :
  exists output new_state log,
    BasicNeatCell.call self kernel bias inputs state =
      Ok ((output, new_state), log) /\
    all_entries below_tanh_1 output.
Proof.
  do 3 eexists. split.
  - now apply BasicNeatCell_call_closed.
  - apply basic_new_h_below_tanh_1.
Qed.

End BasicBounds.

(** ** Arguments of the wrong shape *)

Lemma bind_inv {A B} (m : M A) (k : A -> M B) w l :
  bind m k = Ok (w, l) ->
  exists v l1 l2, m = Ok (v, l1) /\ k v = Ok (w, l2) /\ l = l1 ++ l2.
Proof.
  unfold bind. destruct m as [[v l1] | e]; [| discriminate].
  destruct (k v) as [[w' l2] | e] eqn:E; [| discriminate].
  intros [= <- <-]. now exists v, l1, l2.
Qed.

Lemma emit_inv {A} o (r : option A) v l :
  emit o r = Ok (v, l) -> r = Some v.
Proof. destruct r; cbn; congruence. Qed.

Lemma split_sizes_Sizes_inv sizes dim sizes' :
  split_sizes (Sizes sizes) dim = Some sizes' ->
  list_sum sizes = dim /\ sizes' = sizes.
Proof.
  unfold split_sizes.
  destruct (list_sum sizes =? dim) eqn:E; [| discriminate].
  apply Nat.eqb_eq in E. intros [= <-]. auto.
Qed.

Lemma split_cols_inv v sizes ps l :
  array_ops.split v (Sizes sizes) 1 = Ok (ps, l) ->
  list_sum sizes = t_cols v /\ ps = Dense.split_cols sizes v.
Proof.
  intros H. apply emit_inv in H.
  destruct (split_sizes (Sizes sizes) (t_cols v)) as [s |] eqn:E;
    [| discriminate].
  apply split_sizes_Sizes_inv in E as [Hsum ->].
  cbn in H. injection H as <-. auto.
Qed.

Lemma split_rows_inv v sizes ps l :
  array_ops.split v (Sizes sizes) 0 = Ok (ps, l) ->
  list_sum sizes = t_rows v /\ ps = Dense.split_rows sizes v.
Proof.
  intros H. apply emit_inv in H.
  destruct (split_sizes (Sizes sizes) (t_rows v)) as [s |] eqn:E;
    [| discriminate].
  apply split_sizes_Sizes_inv in E as [Hsum ->].
  cbn in H. injection H as <-. auto.
Qed.

Lemma split_vec_inv (v : Vec) sizes ps l :
  array_ops.split_vec v (Sizes sizes) 0 = Ok (ps, l) ->
  list_sum sizes = length v /\ ps = Dense.split_vec sizes v.
Proof.
  intros H. apply emit_inv in H.
  destruct (split_sizes (Sizes sizes) (length v)) as [s |] eqn:E;
    [| discriminate].
  apply split_sizes_Sizes_inv in E as [Hsum ->].
  cbn in H. injection H as <-. auto.
Qed.

Lemma matmul_inv (a b : Tensor) r l :
  math_ops.matmul a b = Ok (r, l) -> t_cols a = t_rows b.
Proof.
  unfold math_ops.matmul, ret_tensor, ret. rewrite !bind_Ok.
  destruct (t_cols a =? t_rows b) eqn:E; [| discriminate].
  intros _. now apply Nat.eqb_eq.
Qed.

Lemma binary_left_inv o f mx my r l :
  binary o f mx my = Ok (r, l) -> exists x lx, mx = Ok (x, lx).
Proof.
  unfold binary. intros H.
  apply bind_inv in H as (x & lx & _ & Hx & _). eauto.
Qed.

Ltac invert_bind H v Hv :=
  let l1 := fresh "l" in
  let l2 := fresh "l" in
  apply bind_inv in H as (v & l1 & l2 & Hv & H & _).

(** When [call] returns, the kernel and the bias have the shapes that
    [build] gives them, and a hidden state passed in a pair has
    [num_units] columns. *)
Lemma call_returns_only_on_shapes k self kernel bias inputs state r :
  cell_call k self kernel bias inputs state = Ok r ->
  let n := _num_units self in
  t_rows kernel = t_cols inputs + n /\
  t_cols kernel = 8 * n /\
  length bias = 8 * n /\
  (forall c h, _state_is_tuple self = true ->
               state = LSTMStateTuple c h -> t_cols h = n).
Proof.
  destruct r as [w l]. intros H n.
  assert (Hcommon :
    exists c h p q rest,
      (if _state_is_tuple self then iter2 state = Ok ((c, h), [])
       else True) /\
      p + q = 8 * n /\
      list_sum [p; q] = t_cols kernel /\
      list_sum [t_cols inputs; n] = t_rows kernel /\
      list_sum [p; q] = length bias /\
      (exists o f r' l',
          binary o f
            (math_ops.matmul h
               (Dense.slice_rows (t_cols inputs) n
                  (Dense.slice_cols 0 p kernel)))
            rest = Ok (r', l'))).
  { destruct k; cbn [cell_call] in H;
      unfold BasicNeatCell.call, AdvancedNeatCell.call in H; fold n in H.
    all: invert_bind H zero Hz; unfold constant_op.constant in Hz;
      apply emit_inv in Hz; injection Hz as <-.
    all: invert_bind H one Ho; unfold constant_op.constant in Ho;
      apply emit_inv in Ho; injection Ho as <-.
    all: invert_bind H ch Hch; destruct ch as [c h].
    all: invert_bind H ps Hs1; apply split_cols_inv in Hs1 as [Hs1 ->];
      cbn [Dense.split_cols Dense.pieces] in H.
    all: invert_bind H ps Hs2; apply split_rows_inv in Hs2 as [Hs2 ->];
      cbn [Dense.split_rows Dense.pieces] in H.
    all: invert_bind H ps Hs3; apply split_vec_inv in Hs3 as [Hs3 ->];
      cbn [Dense.split_vec Dense.pieces] in H.
    all: invert_bind H a Ha.
    all: eexists c, h, _, _, _.
    all: split;
      [ revert Hch; destruct (_state_is_tuple self); [| intros; exact I];
        destruct state; cbn;
        [intros [= <- <- _]; reflexivity | discriminate] |].
    all: split; [| split; [exact Hs1 | split; [exact Hs2 |
                   split; [exact Hs3 | do 4 eexists; exact Ha]]]].
    all: lia. }
  destruct Hcommon as (c & h & p & q & rest & Hch & Hpq & Hs1 & Hs2 & Hs3
                       & o & f & r' & l' & Hbin).
  cbn [list_sum fold_right] in Hs1, Hs2, Hs3. cbn [t_rows Dense.slice_cols] in Hs2.
  repeat split; try lia.
  intros c0 h0 Ht ->. rewrite Ht in Hch. cbn in Hch.
  injection Hch as <- <-.
  apply binary_left_inv in Hbin as (x & lx & Hm).
  apply matmul_inv in Hm. exact Hm.
Qed.

(** X4 -- A kernel or a bias whose shape is not the one [build] gives it
    makes [call] fail in the framework: unless the kernel is
    [[input_depth + num_units, 8 * num_units]] and the bias has
    [8 * num_units] entries, [call] raises the framework's exception and
    returns nothing. *)
Theorem wrong_variable_shape_raises k self kernel bias inputs state :
  t_rows kernel <> t_cols inputs + _num_units self \/
  t_cols kernel <> 8 * _num_units self \/
  length bias <> 8 * _num_units self ->
  cell_call k self kernel bias inputs state = Raise FrameworkError.
Proof.
  intros Hbad.
  destruct (cell_call k self kernel bias inputs state) as [r | e] eqn:E.
  - apply call_returns_only_on_shapes in E as (Hr & Hc & Hb & _). tauto.
  - f_equal. now apply (@cell_call_framework_only
                          k self kernel bias inputs state).
Qed.

(** X5 -- A hidden state whose width is not [num_units] makes [call]
    fail in the framework (the first matrix multiply refuses it). *)
Theorem wrong_hidden_width_raises k self kernel bias inputs c h :
  _state_is_tuple self = true ->
  t_cols h <> _num_units self ->
  cell_call k self kernel bias inputs (LSTMStateTuple c h) =
  Raise FrameworkError.
Proof.
  intros Ht Hbad.
  destruct (cell_call k self kernel bias inputs (LSTMStateTuple c h))
    as [r | e] eqn:E.
  - apply call_returns_only_on_shapes in E as (_ & _ & _ & Hh).
    now specialize (Hh c h Ht eq_refl).
  - f_equal. now apply (@cell_call_framework_only
                          k self kernel bias inputs (LSTMStateTuple c h)).
Qed.

(** ** The rows of a batch *)

Lemma zipWith_app {A B C} (f : A -> B -> C) u1 u2 v1 v2 :
  length u1 = length v1 ->
  Dense.zipWith f (u1 ++ u2) (v1 ++ v2) =
  Dense.zipWith f u1 v1 ++ Dense.zipWith f u2 v2.
Proof.
  revert v1. induction u1 as [| a u1 IH]; intros [| b v1] H;
    cbn in *; try discriminate; [reflexivity |].
  f_equal. apply IH. lia.
Qed.

Lemma map_concat_rows f a b :
  Dense.map f (Dense.concat_rows a b) =
  Dense.concat_rows (Dense.map f a) (Dense.map f b).
Proof. unfold Dense.map, Dense.concat_rows. cbn. now rewrite map_app. Qed.

Lemma map2_concat_rows f a1 a2 b1 b2 :
  length (t_data a1) = length (t_data b1) ->
  Dense.map2 f (Dense.concat_rows a1 a2) (Dense.concat_rows b1 b2) =
  Dense.concat_rows (Dense.map2 f a1 b1) (Dense.map2 f a2 b2).
Proof.
  intros H. unfold Dense.map2, Dense.concat_rows. cbn.
  now rewrite zipWith_app.
Qed.

Lemma matmul_concat_rows a1 a2 b :
  Dense.matmul (Dense.concat_rows a1 a2) b =
  Dense.concat_rows (Dense.matmul a1 b) (Dense.matmul a2 b).
Proof.
  unfold Dense.matmul, Dense.concat_rows. cbn. now rewrite map_app.
Qed.

Lemma bias_add_concat_rows a1 a2 b :
  Dense.bias_add (Dense.concat_rows a1 a2) b =
  Dense.concat_rows (Dense.bias_add a1 b) (Dense.bias_add a2 b).
Proof.
  unfold Dense.bias_add, Dense.concat_rows. cbn. now rewrite map_app.
Qed.

Lemma slice_cols_concat_rows off len a1 a2 :
  Dense.slice_cols off len (Dense.concat_rows a1 a2) =
  Dense.concat_rows (Dense.slice_cols off len a1)
                    (Dense.slice_cols off len a2).
Proof.
  unfold Dense.slice_cols, Dense.concat_rows. cbn. now rewrite map_app.
Qed.

Lemma concat_cols_concat_rows a1 a2 b1 b2 :
  length (t_data a1) = length (t_data b1) ->
  Dense.concat_cols (Dense.concat_rows a1 a2) (Dense.concat_rows b1 b2) =
  Dense.concat_rows (Dense.concat_cols a1 b1) (Dense.concat_cols a2 b2).
Proof.
  intros H. unfold Dense.concat_cols, Dense.concat_rows. cbn.
  now rewrite zipWith_app.
Qed.

(** The number of rows of data of a pure operation. *)
Ltac rows_side :=
  cbn [t_data Dense.map Dense.map2 Dense.matmul Dense.bias_add
       Dense.slice_cols Dense.concat_rows];
  repeat first [ rewrite length_map | rewrite length_zipWith
               | rewrite length_app ];
  lia.

Ltac stack_step :=
  first
    [ rewrite matmul_concat_rows
    | rewrite map_concat_rows
    | rewrite bias_add_concat_rows
    | rewrite slice_cols_concat_rows
    | rewrite map2_concat_rows by rows_side ].

Lemma closed_forms_stack k n w x1 x2 c1 c2 h1 h2 :
  length (t_data x1) = length (t_data c1) ->
  length (t_data h1) = length (t_data c1) ->
  closed_new_c k n w (Dense.concat_rows x1 x2) (Dense.concat_rows c1 c2)
               (Dense.concat_rows h1 h2) =
  Dense.concat_rows (closed_new_c k n w x1 c1 h1)
                    (closed_new_c k n w x2 c2 h2) /\
  closed_new_h k n w (Dense.concat_rows x1 x2) (Dense.concat_rows c1 c2)
               (Dense.concat_rows h1 h2) =
  Dense.concat_rows (closed_new_h k n w x1 c1 h1)
                    (closed_new_h k n w x2 c2 h2).
Proof.
  intros Hx Hh.
  destruct k; cbn [closed_new_c closed_new_h];
    unfold BasicForm.new_h, BasicForm.new_h_of, BasicForm.new_c,
      BasicForm.new_c_of, BasicForm.gate, BasicForm.a, BasicForm.bh,
      AdvancedForm.new_h, AdvancedForm.new_c, AdvancedForm.gate5,
      AdvancedForm.gate3, AdvancedForm.sw, AdvancedForm.xz;
    cbn [nth Dense.split_cols Dense.pieces repeat];
    split; repeat stack_step; reflexivity.
Qed.

Lemma closed_forms_rows k n w x c h :
  length (t_data x) = length (t_data c) ->
  length (t_data h) = length (t_data c) ->
  length (t_data (closed_new_c k n w x c h)) =
  length (t_data (closed_new_h k n w x c h)).
Proof.
  intros Hx Hh.
  destruct k; cbn [closed_new_c closed_new_h];
    unfold BasicForm.new_h, BasicForm.new_h_of, BasicForm.new_c,
      BasicForm.new_c_of, BasicForm.gate, BasicForm.a, BasicForm.bh,
      AdvancedForm.new_h, AdvancedForm.new_c, AdvancedForm.gate5,
      AdvancedForm.gate3, AdvancedForm.sw, AdvancedForm.xz;
    cbn [nth Dense.split_cols Dense.pieces repeat];
    rows_side.
Qed.

Lemma state_parts_stack n s1 s2 size B1 B2 :
  state_matches B1 size s1 -> state_matches B2 size s2 ->
  state_c n (stack_states s1 s2) =
    Dense.concat_rows (state_c n s1) (state_c n s2) /\
  state_h n (stack_states s1 s2) =
    Dense.concat_rows (state_h n s1) (state_h n s2) /\
  state_matches (B1 + B2) size (stack_states s1 s2).
Proof.
  destruct size, s1, s2; cbn; try contradiction.
  - unfold has_shape. cbn. intros [[? ?] [? ?]] [[? ?] [? ?]].
    repeat split; auto; lia.
  - unfold has_shape. cbn. intros [? ?] [? ?].
    rewrite !slice_cols_concat_rows. repeat split; auto; lia.
Qed.

Lemma pack_state_stack (state_is_tuple : bool) c1 c2 h1 h2 :
  length (t_data c1) = length (t_data h1) ->
  pack_state state_is_tuple (Dense.concat_rows c1 c2)
             (Dense.concat_rows h1 h2) =
  stack_states (pack_state state_is_tuple c1 h1)
               (pack_state state_is_tuple c2 h2).
Proof.
  intros H. destruct state_is_tuple; cbn; [reflexivity |].
  now rewrite concat_cols_concat_rows.
Qed.

(** X6 -- [call] treats the rows of a batch independently: running it on
    two batches put one under the other (inputs and states) returns the
    two outputs and the two new states put one under the other. *)
Theorem batch_rows_are_independent k self kernel bias x1 x2 s1 s2 :
  let n := _num_units self in
  t_rows kernel = t_cols x1 + n ->
  t_cols kernel = 8 * n ->
  length bias = 8 * n ->
  t_cols x2 = t_cols x1 ->
  wf x1 -> state_wf s1 ->
  state_matches (t_rows x1) (cell_state_size k self) s1 ->
  state_matches (t_rows x2) (cell_state_size k self) s2 ->
  exists o1 st1 o2 st2 log,
    cell_call k self kernel bias x1 s1 = Ok ((o1, st1), log) /\
    cell_call k self kernel bias x2 s2 = Ok ((o2, st2), log) /\
    cell_call k self kernel bias (Dense.concat_rows x1 x2)
              (stack_states s1 s2) =
      Ok ((Dense.concat_rows o1 o2, stack_states st1 st2), log).
Proof.
  intros n Hkr Hkc Hb Hx2 Hwx Hws Hs1 Hs2.
  destruct (@state_parts_stack n _ _ _ _ _ Hs1 Hs2) as (Hc & Hh & Hs).
  assert (Hsize : cell_state_size k self =
                  if _state_is_tuple self then LSTMStateTuple n n
                  else Single (2 * n)) by (destruct k; reflexivity).
  assert (Hparts := Hs1). rewrite Hsize in Hparts.
  destruct (@state_parts_wf _ _ _ _ Hws Hparts)
    as ([Hwc _] & [Hwh _] & [Hcr _] & [Hhr _]).
  destruct Hwx as [Hwx _].
  assert (Hlx : length (t_data x1) = length (t_data (state_c n s1)))
    by lia.
  assert (Hlh : length (t_data (state_h n s1)) =
                length (t_data (state_c n s1))) by lia.
  do 5 eexists. split; [| split].
  - apply cell_call_closed; auto.
  - apply cell_call_closed; auto. now rewrite Hx2.
  - rewrite cell_call_closed; auto. fold n.
    cbn [t_cols Dense.concat_rows]. rewrite Hx2, Hc, Hh.
    destruct (@closed_forms_stack k n
                (blocks (t_cols x1) n (ratio k n) kernel bias)
                x1 x2 (state_c n s1) (state_c n s2)
                (state_h n s1) (state_h n s2) Hlx Hlh) as [-> ->].
    rewrite pack_state_stack by now apply closed_forms_rows.
    reflexivity.
Qed.

(** ** The Basic cell from a zero hidden state *)

Lemma dot_zero_l u v : Forall is_zero u -> Dense.dot u v = 0%R.
Proof.
  intros Hu. revert v. unfold Dense.dot.
  induction Hu as [| a u Ha Hu IH]; intros [| b v]; cbn; auto.
  rewrite IH, Ha. lra.
Qed.

Lemma map_const_seq {A} (a : A) start len :
  List.map (fun _ => a) (seq start len) = repeat a len.
Proof.
  revert start. induction len as [| len IH]; intros start; cbn;
    [reflexivity | now rewrite IH].
Qed.

Lemma matmul_zero_data h W :
  all_entries is_zero h ->
  t_data (Dense.matmul h W) =
  List.map (fun _ => repeat 0%R (t_cols W)) (t_data h).
Proof.
  intros Hh. unfold Dense.matmul. cbn [t_data].
  unfold all_entries in Hh.
  induction Hh as [| rw rest Hrw Hrest IH]; cbn; [reflexivity |].
  rewrite IH. f_equal.
  rewrite <- (map_const_seq 0%R 0 (t_cols W)).
  apply map_ext. intros j. now apply dot_zero_l.
Qed.






(** ** The hidden rows of the kernel *)

Lemma matmul_zero_hidden h W1 W2 :
  all_entries is_zero h -> t_cols W1 = t_cols W2 ->
  Dense.matmul h W1 = Dense.matmul h W2.
Proof.
  intros Hh Hc.
  pose proof (@matmul_zero_data h W1 Hh) as H1.
  pose proof (@matmul_zero_data h W2 Hh) as H2.
  unfold Dense.matmul in *. cbn [t_data] in H1, H2.
  now rewrite H1, H2, Hc.
Qed.

Lemma slice_rows_slice_cols off len a b K :
  Dense.slice_rows off len (Dense.slice_cols a b K) =
  Dense.slice_cols a b (Dense.slice_rows off len K).
Proof.
  unfold Dense.slice_rows, Dense.slice_cols, Dense.slice.
  cbn [t_rows t_cols t_data]. now rewrite skipn_map, firstn_map.
Qed.

(** X8 -- From a zero hidden state the rows of the kernel that multiply
    the hidden state have no effect on [call], for either cell: two
    kernels with the same input rows give the same result. *)
Theorem zero_hidden_ignores_hidden_rows
        k self kernel1 kernel2 bias inputs state :
  let n := _num_units self in
  t_rows kernel1 = t_cols inputs + n -> t_cols kernel1 = 8 * n ->
  t_rows kernel2 = t_cols inputs + n -> t_cols kernel2 = 8 * n ->
  length bias = 8 * n ->
  state_matches (t_rows inputs) (cell_state_size k self) state ->
  all_entries is_zero (state_h n state) ->
  Dense.slice_rows 0 (t_cols inputs) kernel1 =
  Dense.slice_rows 0 (t_cols inputs) kernel2 ->
  cell_call k self kernel1 bias inputs state =
  cell_call k self kernel2 bias inputs state.
Proof.
  intros n Hr1 Hc1 Hr2 Hc2 Hb Hst Hzero Hrows.
  rewrite !cell_call_closed by assumption. fold n.
  set (w1 := blocks (t_cols inputs) n (ratio k n) kernel1 bias).
  set (w2 := blocks (t_cols inputs) n (ratio k n) kernel2 bias).
  assert (Hfi : W_fi w1 = W_fi w2)
    by (unfold w1, w2; cbn [blocks W_fi];
        now rewrite !slice_rows_slice_cols, Hrows).
  assert (Hri : W_ri w1 = W_ri w2)
    by (unfold w1, w2; cbn [blocks W_ri];
        now rewrite !slice_rows_slice_cols, Hrows).
  assert (Hfh : Dense.matmul (state_h n state) (W_fh w1) =
                Dense.matmul (state_h n state) (W_fh w2))
    by (apply matmul_zero_hidden; [assumption | reflexivity]).
  assert (Hrh : Dense.matmul (state_h n state) (W_rh w1) =
                Dense.matmul (state_h n state) (W_rh w2))
    by (apply matmul_zero_hidden; [assumption | reflexivity]).
  assert (Hbf : b_f w1 = b_f w2) by reflexivity.
  assert (Hbr : b_r w1 = b_r w2) by reflexivity.
  clearbody w1 w2.
  destruct k; cbn [closed_new_c closed_new_h];
    unfold BasicForm.new_h, BasicForm.new_h_of, BasicForm.new_c,
      BasicForm.new_c_of, BasicForm.gate, BasicForm.a, BasicForm.bh,
      AdvancedForm.new_h, AdvancedForm.new_c, AdvancedForm.gate5,
      AdvancedForm.gate3, AdvancedForm.sw, AdvancedForm.xz;
    now rewrite Hfi, Hri, Hfh, Hrh, Hbf, Hbr.
Qed.

(** ** What [build] depends on *)

(** X9 -- [build] reads only the last dimension of the input shape: the
    batch dimension, known or not, does not change what it builds; and
    it leaves [state_size] and [output_size] as they were, so they can
    be read before the cell is built. *)
Theorem build_ignores_batch_dimension k self b b' input_depth :
  cell_build k self [b; Some input_depth] =
  cell_build k self [b'; Some input_depth] /\
  exists built_self,
    cell_build k self [b; Some input_depth] = Ok built_self /\
    cell_state_size k built_self = cell_state_size k self /\
    cell_output_size k built_self = cell_output_size k self /\
    built built_self = true.
Proof.
  rewrite !cell_build_Ok. split; [reflexivity |].
  eexists. split; [reflexivity |].
  destruct k; repeat split.
Qed.

(** ** One step after another *)

Lemma call_keeps_state_size k self kernel bias inputs state :
  let n := _num_units self in
  t_rows kernel = t_cols inputs + n ->
  t_cols kernel = 8 * n ->
  length bias = 8 * n ->
  wf inputs -> wf kernel -> state_wf state ->
  state_matches (t_rows inputs) (cell_state_size k self) state ->
  exists output new_state log,
    cell_call k self kernel bias inputs state =
      Ok ((output, new_state), log) /\
    has_shape (t_rows inputs) n output /\ wf output /\
    state_matches (t_rows inputs) (cell_state_size k self) new_state /\
    state_wf new_state.
Proof.
  intros n Hr Hc Hl Hx Hk Hs Hst.
  assert (Hsize : cell_state_size k self =
                  if _state_is_tuple self then LSTMStateTuple n n
                  else Single (2 * n)) by (destruct k; reflexivity).
  assert (Hst' := Hst). rewrite Hsize in Hst'.
  destruct (@state_parts_wf _ _ _ _ Hs Hst') as (Hwc & Hwh & Hsc & Hsh).
  destruct (@closed_forms_wf k n kernel bias inputs
              (state_c n state) (state_h n state) (t_rows inputs))
    as (Hnc & Hnh & [Hcr Hcc] & [Hhr Hhc]); auto.
  do 3 eexists. split; [now apply cell_call_closed |].
  split; [split; assumption |]. split; [exact Hnh |].
  rewrite Hsize.
  destruct (_state_is_tuple self); cbn [pack_state state_matches state_wf].
  - unfold has_shape. auto.
  - split.
    + unfold has_shape. cbn [t_rows t_cols Dense.concat_cols].
      fold n. lia.
    + apply wf_concat_cols; auto. fold n. lia.
Qed.

(** X10 -- The state [call] returns can be fed to the next step: on a
    second input of the same shape, [call] on the returned state
    completes too, and returns an output and a state of the same shapes
    again. *)
Theorem two_steps_chain k self kernel bias inputs1 inputs2 state :
  let n := _num_units self in
  t_rows kernel = t_cols inputs1 + n ->
  t_cols kernel = 8 * n ->
  length bias = 8 * n ->
  get_shape inputs2 = get_shape inputs1 ->
  wf inputs1 -> wf inputs2 -> wf kernel -> state_wf state ->
  state_matches (t_rows inputs1) (cell_state_size k self) state ->
  exists output1 state1 log1 output2 state2 log2,
    cell_call k self kernel bias inputs1 state =
      Ok ((output1, state1), log1) /\
    cell_call k self kernel bias inputs2 state1 =
      Ok ((output2, state2), log2) /\
    log2 = log1 /\
    has_shape (t_rows inputs1) n output2 /\
    state_matches (t_rows inputs1) (cell_state_size k self) state2.
Proof.
  intros n Hr Hc Hl Hshape Hx1 Hx2 Hk Hs Hst.
  injection Hshape as Hrows Hcols.
  destruct (@call_keeps_state_size k self kernel bias inputs1 state)
    as (o1 & s1 & l1 & Hcall1 & _ & _ & Hst1 & Hs1); auto.
  rewrite <- Hrows in Hst1.
  destruct (@call_keeps_state_size k self kernel bias inputs2 s1)
    as (o2 & s2 & l2 & Hcall2 & Ho2 & _ & Hst2 & _); auto;
    try (rewrite Hcols; assumption).
  exists o1, s1, l1, o2, s2, l2.
  rewrite Hrows in Ho2, Hst2.
  repeat split; try assumption; try apply Ho2.
  rewrite cell_call_closed in Hcall1, Hcall2; auto;
    try (rewrite Hcols; assumption); try (now rewrite Hrows).
  congruence.
Qed.

(** ** The sign of the Advanced output *)






Section AdvancedSign.
Variables (self : Cell) (kernel : Tensor) (bias : Vec)
          (inputs : Tensor) (state : Nested Tensor).
Let n := _num_units self.

Hypothesis kernel_rows : t_rows kernel = t_cols inputs + n.
Hypothesis kernel_cols : t_cols kernel = 8 * n.
Hypothesis bias_length : length bias = 8 * n.
Hypothesis state_ok :
  state_matches (t_rows inputs) (AdvancedNeatCell.state_size self) state.
Hypothesis inputs_wf : wf inputs.
Hypothesis kernel_wf : wf kernel.
Hypothesis state_is_wf : state_wf state.

End AdvancedSign.

(** X12 -- The order of the framework calls of [call], for either cell:
    the two constants, the split of the state when it is not a tuple,
    then the split of the kernel by columns at the cell's ratio, the
    split of its first part by rows and the split of the bias; two
    matrix multiplies (the hidden state and the inputs against their
    blocks of the first part), their combination entry by entry (Basic:
    product; Advanced: sum) and the first bias part; in the Advanced cell
    the split of this projection into five gates; then the split of the
    second part of the kernel by rows, two more matrix multiplies, their
    combination (Basic: sum; Advanced: maximum), the second bias part and
    the split into gates (Basic: seven; Advanced: three); the formulas
    follow.  There are exactly four matrix multiplies, and exactly three
    splits of the variables come before the first of them. *)
Theorem kernel_split_before_four_multiplies
        k self0 b self kernel bias inputs state :
  cell_build k self0 [b; Some (t_cols inputs)] = Ok self ->
  variables_hold self kernel bias ->
  state_matches (t_rows inputs) (cell_state_size k self) state ->
  exists out log,
    cell_call k self kernel bias inputs state = Ok (out, log) /\
    log = [Op_constant; Op_constant] ++ unpack_log (_state_is_tuple self)
            ++ projection_log k ++ combine_log k
            ++ pack_log (_state_is_tuple self) /\
    projection_log k =
      match k with
      | BasicNeat =>
          [Op_split; Op_split; Op_split;
           Op_matmul; Op_matmul; Op_multiply; Op_bias_add;
           Op_split;
           Op_matmul; Op_matmul; Op_add; Op_bias_add;
           Op_split]
      | AdvancedNeat =>
          [Op_split; Op_split; Op_split;
           Op_matmul; Op_matmul; Op_add; Op_bias_add;
           Op_split; Op_split;
           Op_matmul; Op_matmul; Op_maximum; Op_bias_add;
           Op_split]
      end /\
    count Op_matmul log = 4 /\
    before_first_matmul log =
      [Op_constant; Op_constant] ++ unpack_log (_state_is_tuple self)
        ++ [Op_split; Op_split; Op_split] /\
    let n := _num_units self in
    let w := blocks (t_cols inputs) n (ratio k n) kernel bias in
    fst out = closed_new_h k n w inputs (state_c n state) (state_h n state).
Proof.
  intros Hbuild Hvars Hst.
  do 2 eexists. split.
  - apply (cell_step _ _ _ _ _ Hbuild Hvars Hst).
  - unfold call_log.
    destruct k, (_state_is_tuple self); repeat split; reflexivity.
Qed.




(** X14 -- The new cell state of [AdvancedNeatCell] is not bounded by 1,
    even from inside the bound: from the zero state and a zero input,
    with a zero kernel and a bias that holds [y] for the gate [y] (column
    6 for one unit) and 0 elsewhere, the new cell state is [y / 2], which
    is above 1 as soon as [y] is above 2. *)
Theorem advanced_cell_state_unbounded (y : R) :
  (2 < y)%R ->
  exists new_c new_h log,
    cell_call AdvancedNeat (example_cell AdvancedNeat true)
              zero_kernel (bias_at 6 y) (row [0%R])
              (LSTMStateTuple (row [0%R]) (row [0%R])) =
      Ok ((new_h, LSTMStateTuple new_c new_h), log) /\
    new_c = row [(y / 2)%R] /\
    ~ all_entries within_unit new_c.
Proof.
  intros Hy.
  exists (row [(y / 2)%R]). eexists. eexists.
  split; [| split; [reflexivity |]].
  - evaluate. real_normalize.
    replace (y * (1 / 2))%R with (y / 2)%R by lra. reflexivity.
  - unfold all_entries, within_unit. cbn. intros H.
    inversion H as [| rw rest Hrw _]. inversion Hrw as [| x xs Hx _]. lra.
Qed.

(** ** Witnesses of the further properties *)

(** Side conditions on the concrete cells and tensors. *)
Ltac example_side :=
  first
    [ reflexivity
    | split; reflexivity
    | split; cbn; [reflexivity | repeat constructor]
    | cbn; unfold has_shape; repeat split; reflexivity
    | cbn; repeat split; repeat constructor ].

Lemma concatenated_state_agrees_with_tuple_witness :
  exists new_c new_h log_t log_f,
    cell_call BasicNeat (example_cell BasicNeat true) zero_kernel zero_bias
              (row [0%R]) (LSTMStateTuple (row [4%R]) (row [0%R])) =
      Ok ((new_h, LSTMStateTuple new_c new_h), log_t) /\
    cell_call BasicNeat (example_cell BasicNeat false) zero_kernel
              zero_bias (row [0%R])
              (Single (Dense.concat_cols (row [4%R]) (row [0%R]))) =
      Ok ((new_h, Single (Dense.concat_cols new_c new_h)), log_f).
Proof.
  apply (@concatenated_state_agrees_with_tuple
           BasicNeat (example_cell BasicNeat true)
           (example_cell BasicNeat false) zero_kernel zero_bias
           (row [0%R]) (row [4%R]) (row [0%R])); example_side.
Defined.

Lemma basic_output_below_tanh_1_witness :
  exists output new_state log,
    BasicNeatCell.call (example_cell BasicNeat true) (column_kernel 0)
                       zero_bias (row [1%R]) (example_state true 1 1) =
      Ok ((output, new_state), log) /\
    all_entries below_tanh_1 output.
Proof.
  apply (@basic_output_below_tanh_1
           (example_cell BasicNeat true) (column_kernel 0) zero_bias
           (row [1%R]) (example_state true 1 1)); example_side.
Defined.


Lemma wrong_variable_shape_raises_witness :
  cell_call AdvancedNeat (example_cell AdvancedNeat true) (row [0%R])
            zero_bias (row [0%R]) (example_state true 4 0) =
  Raise FrameworkError.
Proof.
  apply (@wrong_variable_shape_raises
           AdvancedNeat (example_cell AdvancedNeat true) (row [0%R])
           zero_bias (row [0%R]) (example_state true 4 0)).
  left. cbn. lia.
Defined.

Lemma wrong_hidden_width_raises_witness :
  cell_call BasicNeat (example_cell BasicNeat true) zero_kernel zero_bias
            (row [0%R]) (LSTMStateTuple (row [4%R]) (row [0%R; 0%R])) =
  Raise FrameworkError.
Proof.
  apply (@wrong_hidden_width_raises
           BasicNeat (example_cell BasicNeat true) zero_kernel zero_bias
           (row [0%R]) (row [4%R]) (row [0%R; 0%R])).
  - reflexivity.
  - cbn. lia.
Defined.

Lemma batch_rows_are_independent_witness :
  exists o1 st1 o2 st2 log,
    cell_call AdvancedNeat (example_cell AdvancedNeat false)
              (column_kernel 6) zero_bias (row [1%R])
              (example_state false 4 0) = Ok ((o1, st1), log) /\
    cell_call AdvancedNeat (example_cell AdvancedNeat false)
              (column_kernel 6) zero_bias (row [2%R])
              (example_state false 1 1) = Ok ((o2, st2), log) /\
    cell_call AdvancedNeat (example_cell AdvancedNeat false)
              (column_kernel 6) zero_bias
              (Dense.concat_rows (row [1%R]) (row [2%R]))
              (stack_states (example_state false 4 0)
                            (example_state false 1 1)) =
      Ok ((Dense.concat_rows o1 o2, stack_states st1 st2), log).
Proof.
  apply (@batch_rows_are_independent
           AdvancedNeat (example_cell AdvancedNeat false)
           (column_kernel 6) zero_bias (row [1%R]) (row [2%R])
           (example_state false 4 0) (example_state false 1 1));
    example_side.
Defined.


Lemma zero_hidden_ignores_hidden_rows_witness :
  cell_call AdvancedNeat (example_cell AdvancedNeat true) zero_kernel
            zero_bias (row [1%R]) (example_state true 4 0) =
  cell_call AdvancedNeat (example_cell AdvancedNeat true)
            (hidden_row_kernel 6) zero_bias (row [1%R])
            (example_state true 4 0).
Proof.
  apply (@zero_hidden_ignores_hidden_rows
           AdvancedNeat (example_cell AdvancedNeat true) zero_kernel
           (hidden_row_kernel 6) zero_bias (row [1%R])
           (example_state true 4 0)); example_side.
Defined.

Lemma two_steps_chain_witness :
  exists output1 state1 log1 output2 state2 log2,
    cell_call BasicNeat (example_cell BasicNeat false) (column_kernel 0)
              zero_bias (row [0%R]) (example_state false 4 0) =
      Ok ((output1, state1), log1) /\
    cell_call BasicNeat (example_cell BasicNeat false) (column_kernel 0)
              zero_bias (row [1%R]) state1 =
      Ok ((output2, state2), log2) /\
    log2 = log1 /\
    has_shape 1 1 output2 /\
    state_matches 1 (Single 2) state2.
Proof.
  apply (@two_steps_chain
           BasicNeat (example_cell BasicNeat false) (column_kernel 0)
           zero_bias (row [0%R]) (row [1%R]) (example_state false 4 0));
    example_side.
Defined.


Lemma kernel_split_before_four_multiplies_witness :
  exists out log,
    cell_call AdvancedNeat (example_cell AdvancedNeat true)
              (column_kernel 6) zero_bias (row [1%R])
              (example_state true 0 1) = Ok (out, log) /\
    count Op_matmul log = 4.
Proof.
  destruct (@kernel_split_before_four_multiplies
              AdvancedNeat (example_init AdvancedNeat true) None
              (example_cell AdvancedNeat true) (column_kernel 6) zero_bias
              (row [1%R]) (example_state true 0 1))
    as (out & log & Hcall & _ & _ & Hcount & _).
  - reflexivity.
  - split; reflexivity.
  - cbn. unfold has_shape. repeat split; reflexivity.
  - exists out, log. split; [exact Hcall | exact Hcount].
Defined.


Lemma advanced_cell_state_unbounded_witness :
  exists new_c new_h log,
    cell_call AdvancedNeat (example_cell AdvancedNeat true)
              zero_kernel (bias_at 6 4%R) (row [0%R])
              (LSTMStateTuple (row [0%R]) (row [0%R])) =
      Ok ((new_h, LSTMStateTuple new_c new_h), log) /\
    new_c = row [(4 / 2)%R] /\
    ~ all_entries within_unit new_c.
Proof.
  apply (@advanced_cell_state_unbounded 4%R). lra.
Defined.
